(** * Broker deployment orchestrator (pkg/deploy/broker.go)

    A shallow embedding of [Broker], [deploy], [isValidComponents] and
    [checkGlobalnetConfig].  The Go code drives a number of collaborators
    (cluster client, descriptor store, image resolution) and a progress
    reporter.  The collaborators are taken as the fields of a [World]; the
    reporter and the collaborator calls are recorded, in program order, in a
    trace of [Event]s; the [*BrokerOptions] pointer becomes a threaded state. *)

From Stdlib Require Import String List Bool NArith Lia.
From stdpp Require Import base decidable option list sets gmap strings.

Import ListNotations.
Local Open Scope string_scope.
Local Open Scope list_scope.

(** ** Errors *)

(** A Go [error] value: [None] is [nil], [Some m] an error whose [Error()]
    text is [m]. *)
Definition error := option string.

Definition nil_error : error := None.

(** [errors.Wrap(err, message)]: [nil] stays [nil], otherwise the message is
    put in front of the cause. *)
Definition Wrap (err : error) (message : string) : error :=
  match err with
  | None => None
  | Some cause => Some (message +:+ ": " +:+ cause)
  end.

(** [fmt.Errorf] with the format already expanded. *)
Definition Errorf (message : string) : error := Some message.

(** ** Data model *)

Module components.
(** Modelled from the spec: the constants of pkg/subctl/components, the
    recognized vocabulary {service-discovery, connectivity} and the derived
    globalnet component. *)
Definition ServiceDiscovery : string := "service-discovery".
Definition Connectivity : string := "connectivity".
Definition Globalnet : string := "globalnet".
End components.

Module submarinerv1a1.
(** The fields of [submarinerv1a1.BrokerSpec] that the orchestrator reads. *)
Record BrokerSpec := mkBrokerSpec {
  Components : list string;
  DefaultCustomDomains : list string;
  GlobalnetEnabled : bool;
  GlobalnetCIDRRange : string;
  DefaultGlobalnetClusterSize : N
}.
End submarinerv1a1.
Import submarinerv1a1.

(** [v1.ConfigMap], carried by the options and never inspected here. *)
Definition ConfigMap := list (string * string).

Record BrokerOptions := mkBrokerOptions {
  OperatorDebug : bool;
  IpsecSubmFile : string;
  GlobalCIDRConfigMap : option ConfigMap;
  Repository : string;
  ImageVersion : string;
  BrokerNamespace : string;
  BrokerSpec : submarinerv1a1.BrokerSpec
}.

(** [options.IpsecSubmFile = f] *)
Definition set_IpsecSubmFile (f : string) (o : BrokerOptions) : BrokerOptions :=
  mkBrokerOptions (OperatorDebug o) f (GlobalCIDRConfigMap o) (Repository o)
    (ImageVersion o) (BrokerNamespace o) (BrokerSpec o).

(** [options.BrokerSpec.DefaultGlobalnetClusterSize = n] *)
Definition set_DefaultGlobalnetClusterSize (n : N) (o : BrokerOptions) : BrokerOptions :=
  let s := BrokerSpec o in
  mkBrokerOptions (OperatorDebug o) (IpsecSubmFile o) (GlobalCIDRConfigMap o)
    (Repository o) (ImageVersion o) (BrokerNamespace o)
    (mkBrokerSpec (Components s) (DefaultCustomDomains s) (GlobalnetEnabled s)
       (GlobalnetCIDRRange s) n).

(** [rest.Config]: the connection handle produced by the kubeconfig
    resolver; only passed on. *)
Record RestConfig := mkRestConfig { Host : string }.

(** Modelled from the spec: the descriptor type [datafile.SubctlData] (secret
    material, connection coordinates, service-discovery flag, component set,
    optional custom domains) with its [SetComponents] method. *)
Record SubctlData := mkSubctlData {
  BrokerURL : string;
  IPSecPSK : string;
  ServiceDiscovery : bool;
  DataComponents : gset string;
  CustomDomains : option (list string)
}.

Definition set_ServiceDiscovery (b : bool) (d : SubctlData) : SubctlData :=
  mkSubctlData (BrokerURL d) (IPSecPSK d) b (DataComponents d) (CustomDomains d).

Definition SetComponents (cs : gset string) (d : SubctlData) : SubctlData :=
  mkSubctlData (BrokerURL d) (IPSecPSK d) (ServiceDiscovery d) cs (CustomDomains d).

Definition set_CustomDomains (ds : list string) (d : SubctlData) : SubctlData :=
  mkSubctlData (BrokerURL d) (IPSecPSK d) (ServiceDiscovery d) (DataComponents d)
    (Some ds).

(** ** String sets (admiral's [stringset]) *)

(** The set is a Go map behind the [stringset.Interface]; [Elements] ranges
    over that map, in an order Go leaves open.  Here the order is the one of
    [elements]; nothing below depends on it. *)
Module stringset.
Definition New (s : list string) : gset string := list_to_set s.
Definition Add (x : string) (s : gset string) : gset string := s ∪ {[x]}.
Definition Contains (s : gset string) (x : string) : bool := bool_decide (x ∈ s).
Definition Size (s : gset string) : nat := size s.
Definition Elements (s : gset string) : list string := elements s.
End stringset.

(** ** Validation *)

Definition ValidComponents : list string :=
  [components.ServiceDiscovery; components.Connectivity].

Definition brokerDetailsFilename : string := "broker-info.subm".

(** The [for ... range] loop of [isValidComponents]: the first element that
    is not in the valid set ends the loop with an error. *)
Fixpoint firstUnknown (valid : gset string) (elems : list string) : error :=
  match elems with
  | [] => nil_error
  | component :: rest =>
      if negb (stringset.Contains valid component)
      then Errorf ("unknown component: " +:+ component)
      else firstUnknown valid rest
  end.

Definition isValidComponents (componentSet : gset string) : error :=
  let validComponentSet := stringset.New ValidComponents in
  if (stringset.Size componentSet <? 1)%nat
  then Errorf "at least one component must be provided for deployment"
  else firstUnknown validComponentSet (stringset.Elements componentSet).

(** ** Reporter events and collaborator calls *)

(** The five methods of [eventreporter.Reporter], as the events they produce. *)
Inductive Report :=
| Started (message : string)
| Succeeded (message : string)
| Failed (message : string)
| EndedWith (err : error)
| Warned (message : string).

(** The collaborators [Broker] calls, with the arguments it passes (the
    connection handle apart). *)
Inductive Callee :=
| Call_ForCluster
| Call_GetValidClusterSize (cidr : string) (size : N)
| Call_IsValidCIDR (cidr : string)
| Call_broker_Ensure (comps : list string) (allowDisable : bool) (ns : string)
| Call_image_ForOperator (version repo : string)
| Call_submarinerop_Ensure (ns image : string) (debug : bool)
| Call_brokercr_Ensure (ns : string) (spec : submarinerv1a1.BrokerSpec)
| Call_NewFromFile (file : string)
| Call_NewFromCluster (ns ipsecFile : string)
| Call_BackupIfExists (file : string)
| Call_ValidateExistingGlobalNetworks (ns : string)
| Call_CreateGlobalnetConfigMap (enabled : bool) (cidr : string) (size : N) (ns : string)
| Call_WriteToFile (data : SubctlData) (file : string).

(** One entry of a run's trace: a reporter event, or a collaborator call
    with the error it came back with. *)
Inductive Event :=
| Reported (r : Report)
| Called (c : Callee) (err : error).

(** [restconfig.Producer] *)
Record Producer := mkProducer { ForCluster : RestConfig * error }.

(** What the collaborators answer.  Each is called at most once in a run, so
    a function of the arguments is enough.  [submarinerop_Ensure] is handed
    the reporter and may report on its own: it answers with the events it
    reported and its error.  [OperatorNamespace] is the constant of
    internal/constants. *)
Record World := mkWorld {
  OperatorNamespace : string;
  globalnet_GetValidClusterSize : string -> N -> N * error;
  globalnet_IsValidCIDR : string -> error;
  broker_Ensure : RestConfig -> list string -> bool -> string -> error;
  image_ForOperator : string -> string -> string * error;
  submarinerop_Ensure : RestConfig -> string -> string -> bool -> list Report * error;
  brokercr_Ensure : RestConfig -> string -> submarinerv1a1.BrokerSpec -> error;
  datafile_NewFromFile : string -> SubctlData * error;
  datafile_NewFromCluster : RestConfig -> string -> string -> SubctlData * error;
  datafile_BackupIfExists : string -> string * error;
  globalnet_ValidateExistingGlobalNetworks : RestConfig -> string -> error;
  broker_CreateGlobalnetConfigMap : RestConfig -> bool -> string -> N -> string -> error;
  SubctlData_WriteToFile : SubctlData -> string -> error
}.

(** ** The monad of a run *)

(** A computation reads and updates the options object behind the
    [*BrokerOptions] pointer and appends to the trace. *)
Definition M (A : Type) : Type := BrokerOptions -> A * BrokerOptions * list Event.

Definition ret {A} (a : A) : M A := fun o => (a, o, []).

Definition bind {A B} (f : A -> M B) (m : M A) : M B :=
  fun o =>
    let '(a, o1, t1) := m o in
    let '(b, o2, t2) := f a o1 in
    (b, o2, t1 ++ t2).

#[global] Instance M_ret : MRet M := @ret.
#[global] Instance M_bind : MBind M := @bind.

Definition get : M BrokerOptions := fun o => (o, o, []).
Definition modify (f : BrokerOptions -> BrokerOptions) : M unit := fun o => (tt, f o, []).
Definition emit (e : Event) : M unit := fun o => (tt, o, [e]).
Definition emits (es : list Event) : M unit := fun o => (tt, o, es).

Module reporter.
Definition Started (message : string) : M unit := emit (Reported (Started message)).
Definition Succeeded (message : string) : M unit := emit (Reported (Succeeded message)).
Definition Failed (message : string) : M unit := emit (Reported (Failed message)).
Definition EndedWith (err : error) : M unit := emit (Reported (EndedWith err)).
Definition Warned (message : string) : M unit := emit (Reported (Warned message)).
End reporter.

(** A call of a collaborator: the answer is looked up in the world, and the
    call is recorded in the trace with the error it came back with. *)
Section Collaborators.
Variable w : World.

Definition restConfigProducer_ForCluster (p : Producer) : M (RestConfig * error) :=
  emit (Called Call_ForCluster (snd (ForCluster p))) ;; mret (ForCluster p).

Definition GetValidClusterSize (cidr : string) (size : N) : M (N * error) :=
  let r := globalnet_GetValidClusterSize w cidr size in
  emit (Called (Call_GetValidClusterSize cidr size) (snd r)) ;; mret r.

Definition IsValidCIDR (cidr : string) : M error :=
  let r := globalnet_IsValidCIDR w cidr in
  emit (Called (Call_IsValidCIDR cidr) r) ;; mret r.

Definition brokerEnsure (config : RestConfig) (comps : list string)
    (allowDisable : bool) (ns : string) : M error :=
  let r := broker_Ensure w config comps allowDisable ns in
  emit (Called (Call_broker_Ensure comps allowDisable ns) r) ;; mret r.

Definition imageForOperator (version repo : string) : M (string * error) :=
  let r := image_ForOperator w version repo in
  emit (Called (Call_image_ForOperator version repo) (snd r)) ;; mret r.

Definition submarineropEnsure (config : RestConfig) (ns image : string)
    (debug : bool) : M error :=
  let r := submarinerop_Ensure w config ns image debug in
  emits (map Reported (fst r)) ;;
  emit (Called (Call_submarinerop_Ensure ns image debug) (snd r)) ;; mret (snd r).

Definition brokercrEnsure (config : RestConfig) (ns : string)
    (spec : submarinerv1a1.BrokerSpec) : M error :=
  let r := brokercr_Ensure w config ns spec in
  emit (Called (Call_brokercr_Ensure ns spec) r) ;; mret r.

Definition NewFromFile (file : string) : M (SubctlData * error) :=
  let r := datafile_NewFromFile w file in
  emit (Called (Call_NewFromFile file) (snd r)) ;; mret r.

Definition NewFromCluster (config : RestConfig) (ns ipsecFile : string)
    : M (SubctlData * error) :=
  let r := datafile_NewFromCluster w config ns ipsecFile in
  emit (Called (Call_NewFromCluster ns ipsecFile) (snd r)) ;; mret r.

Definition BackupIfExists (file : string) : M (string * error) :=
  let r := datafile_BackupIfExists w file in
  emit (Called (Call_BackupIfExists file) (snd r)) ;; mret r.

Definition ValidateExistingGlobalNetworks (config : RestConfig) (ns : string) : M error :=
  let r := globalnet_ValidateExistingGlobalNetworks w config ns in
  emit (Called (Call_ValidateExistingGlobalNetworks ns) r) ;; mret r.

Definition CreateGlobalnetConfigMap (config : RestConfig) (enabled : bool)
    (cidr : string) (size : N) (ns : string) : M error :=
  let r := broker_CreateGlobalnetConfigMap w config enabled cidr size ns in
  emit (Called (Call_CreateGlobalnetConfigMap enabled cidr size ns) r) ;; mret r.

Definition WriteToFile (data : SubctlData) (file : string) : M error :=
  let r := SubctlData_WriteToFile w data file in
  emit (Called (Call_WriteToFile data file) r) ;; mret r.
End Collaborators.

(** ** The orchestrator *)

Section Orchestrator.
Variable w : World.

Definition checkGlobalnetConfig : M error :=
  options ← get;
  if negb (GlobalnetEnabled (BrokerSpec options)) then mret nil_error else
  '(size, err) ← GetValidClusterSize w (GlobalnetCIDRRange (BrokerSpec options))
                    (DefaultGlobalnetClusterSize (BrokerSpec options));
  modify (set_DefaultGlobalnetClusterSize size);;
  match err with
  | Some _ => mret err
  | None =>
      options ← get;
      IsValidCIDR w (GlobalnetCIDRRange (BrokerSpec options))
  end.

Definition deploy (config : RestConfig) : M error :=
  options ← get;
  reporter.Started "Setting up broker RBAC";;
  err ← brokerEnsure w config (Components (BrokerSpec options)) false
          (BrokerNamespace options);
  reporter.EndedWith err;;
  match err with
  | Some _ => mret (Wrap err "error setting up broker RBAC")
  | None =>
  reporter.Started "Deploying the Submariner operator";;
  '(operatorImage, err) ← imageForOperator w (ImageVersion options) (Repository options);
  match err with
  | Some _ => mret (Wrap err "error getting Operator image")
  | None =>
  err ← submarineropEnsure w config (OperatorNamespace w) operatorImage
          (OperatorDebug options);
  reporter.EndedWith err;;
  match err with
  | Some _ => mret (Wrap err "error deploying the operator")
  | None =>
  reporter.Started "Deploying the broker";;
  err ← brokercrEnsure w config (BrokerNamespace options) (BrokerSpec options);
  match err with
  | None =>
      reporter.Succeeded "The broker has been deployed";;
      mret nil_error
  | Some _ =>
      reporter.Failed "Broker deployment failed";;
      mret (Wrap err "error deploying the broker")
  end end end end.

Definition Broker (restConfigProducer : Producer) : M error :=
  options ← get;
  let componentSet := stringset.New (Components (BrokerSpec options)) in
  match isValidComponents componentSet with
  | Some e => mret (Wrap (Some e) "invalid components parameter")
  | None =>
  let componentSet :=
    if GlobalnetEnabled (BrokerSpec options)
    then stringset.Add components.Globalnet componentSet
    else componentSet in
  err ← checkGlobalnetConfig;
  match err with
  | Some _ => mret (Wrap err "invalid GlobalCIDR configuration")
  | None =>
  '(config, err) ← restConfigProducer_ForCluster restConfigProducer;
  match err with
  | Some _ => mret (Wrap err "the provided kubeconfig is invalid")
  | None =>
  err ← deploy config;
  match err with
  | Some _ => mret err
  | None =>
  reporter.Started ("Creating " +:+ brokerDetailsFilename +:+ " file");;
  (* If deploy-broker is retried we will attempt to re-use the existing
     IPsec PSK secret *)
  options ← get;
  (if String.eqb (IpsecSubmFile options) ""
   then
     '(_, err) ← NewFromFile w brokerDetailsFilename;
     match err with
     | None =>
         modify (set_IpsecSubmFile brokerDetailsFilename);;
         reporter.Warned ("Reusing IPsec PSK from existing " +:+ brokerDetailsFilename)
     | Some _ =>
         reporter.Succeeded
           ("A new IPsec PSK will be generated for " +:+ brokerDetailsFilename)
     end
   else mret tt);;
  options ← get;
  '(subctlData, err) ← NewFromCluster w config (BrokerNamespace options)
                          (IpsecSubmFile options);
  match err with
  | Some _ => mret (Wrap err "error retrieving preparing the subm data file")
  | None =>
  '(newFilename, err) ← BackupIfExists w brokerDetailsFilename;
  match err with
  | Some _ => mret (Wrap err "error backing up the brokerfile")
  | None =>
  (if negb (String.eqb newFilename "")
   then reporter.Succeeded
          ("Backed up previous " +:+ brokerDetailsFilename +:+ " to " +:+ newFilename)
   else mret tt);;
  let subctlData :=
    set_ServiceDiscovery
      (stringset.Contains componentSet components.ServiceDiscovery) subctlData in
  let subctlData := SetComponents componentSet subctlData in
  options ← get;
  let subctlData :=
    if (0 <? length (DefaultCustomDomains (BrokerSpec options)))%nat
    then set_CustomDomains (DefaultCustomDomains (BrokerSpec options)) subctlData
    else subctlData in
  err ← (if GlobalnetEnabled (BrokerSpec options)
         then ValidateExistingGlobalNetworks w config (BrokerNamespace options)
         else mret nil_error);
  match err with
  | Some _ => mret (Wrap err "error validating existing globalCIDR configmap")
  | None =>
  err ← CreateGlobalnetConfigMap w config (GlobalnetEnabled (BrokerSpec options))
          (GlobalnetCIDRRange (BrokerSpec options))
          (DefaultGlobalnetClusterSize (BrokerSpec options))
          (BrokerNamespace options);
  match err with
  | Some _ => mret (Wrap err "error creating globalCIDR configmap on Broker")
  | None =>
  err ← WriteToFile w subctlData brokerDetailsFilename;
  reporter.EndedWith err;;
  mret (Wrap err "error writing the broker information")
  end end end end end end end end.
End Orchestrator.

(** The three results of a run: the returned error, the options object as
    the caller finds it afterwards, and the trace. *)
Definition result {A} (r : A * BrokerOptions * list Event) : A := fst (fst r).
Definition options_after {A} (r : A * BrokerOptions * list Event) : BrokerOptions :=
  snd (fst r).
Definition trace {A} (r : A * BrokerOptions * list Event) : list Event := snd r.

(** ** Observations on traces *)

(** The collaborator calls of a trace, in order, and its reporter events. *)
Fixpoint calls_of (tr : list Event) : list (Callee * error) :=
  match tr with
  | [] => []
  | Called c err :: rest => (c, err) :: calls_of rest
  | Reported _ :: rest => calls_of rest
  end.

Fixpoint reports_of (tr : list Event) : list Report :=
  match tr with
  | [] => []
  | Reported r :: rest => r :: reports_of rest
  | Called _ _ :: rest => reports_of rest
  end.

(** A reporter event that announces a failure: [EndedWith] a non-nil error,
    or [Failed]. *)
Definition is_failure (r : Report) : bool :=
  match r with
  | EndedWith (Some _) | Failed _ => true
  | _ => false
  end.

(** The position of a collaborator call in the program text of [Broker]
    (with [checkGlobalnetConfig] and [deploy] inlined). *)
Definition rank (c : Callee) : nat :=
  match c with
  | Call_GetValidClusterSize _ _ => 0
  | Call_IsValidCIDR _ => 1
  | Call_ForCluster => 2
  | Call_broker_Ensure _ _ _ => 3
  | Call_image_ForOperator _ _ => 4
  | Call_submarinerop_Ensure _ _ _ => 5
  | Call_brokercr_Ensure _ _ => 6
  | Call_NewFromFile _ => 7
  | Call_NewFromCluster _ _ => 8
  | Call_BackupIfExists _ => 9
  | Call_ValidateExistingGlobalNetworks _ => 10
  | Call_CreateGlobalnetConfigMap _ _ _ _ => 11
  | Call_WriteToFile _ _ => 12
  end.

(** The calls made while validating the request: they neither change the
    cluster nor touch the descriptor file. *)
Definition is_validation_call (c : Callee) : bool := (rank c <? 3)%nat.

(** The load of an earlier descriptor is the one call whose error the
    orchestrator does not return. *)
Definition is_load (c : Callee) : bool :=
  match c with Call_NewFromFile _ => true | _ => false end.

Definition is_create_config (ce : Callee * error) : bool :=
  match fst ce with Call_CreateGlobalnetConfigMap _ _ _ _ => true | _ => false end.

(** The context [Broker] and [deploy] put in front of the error of each
    collaborator. *)
Definition phase_message (c : Callee) : option string :=
  match c with
  | Call_GetValidClusterSize _ _ | Call_IsValidCIDR _ =>
      Some "invalid GlobalCIDR configuration"
  | Call_ForCluster => Some "the provided kubeconfig is invalid"
  | Call_broker_Ensure _ _ _ => Some "error setting up broker RBAC"
  | Call_image_ForOperator _ _ => Some "error getting Operator image"
  | Call_submarinerop_Ensure _ _ _ => Some "error deploying the operator"
  | Call_brokercr_Ensure _ _ => Some "error deploying the broker"
  | Call_NewFromFile _ => None
  | Call_NewFromCluster _ _ => Some "error retrieving preparing the subm data file"
  | Call_BackupIfExists _ => Some "error backing up the brokerfile"
  | Call_ValidateExistingGlobalNetworks _ =>
      Some "error validating existing globalCIDR configmap"
  | Call_CreateGlobalnetConfigMap _ _ _ _ =>
      Some "error creating globalCIDR configmap on Broker"
  | Call_WriteToFile _ _ => Some "error writing the broker information"
  end.

(** The calls that sit between a [Started] and an [EndedWith] or [Failed]. *)
Definition is_bracketed (c : Callee) : bool :=
  match c with
  | Call_broker_Ensure _ _ _ | Call_submarinerop_Ensure _ _ _
  | Call_brokercr_Ensure _ _ | Call_WriteToFile _ _ => true
  | _ => false
  end.

Fixpoint increasing (l : list nat) : bool :=
  match l with
  | [] => true
  | x :: rest => forallb (fun y => (x <? y)%nat) rest && increasing rest
  end.

(** No call follows a call that came back with an error, the descriptor
    load apart. *)
Fixpoint stops_at_failure (l : list (Callee * error)) : bool :=
  match l with
  | [] => true
  | (c, Some _) :: rest =>
      (is_load c || match rest with [] => true | _ => false end)
      && stops_at_failure rest
  | (_, None) :: rest => stops_at_failure rest
  end.

(** Some element satisfying [p] comes before some element satisfying [q]. *)
Definition precedes {A} (p q : A -> bool) (l : list A) : Prop :=
  exists l1 x l2 y l3, l = l1 ++ x :: l2 ++ y :: l3 /\ p x = true /\ q y = true.

Fixpoint precedesb {A} (p q : A -> bool) (l : list A) : bool :=
  match l with
  | [] => false
  | x :: rest => (p x && existsb q rest) || precedesb p q rest
  end.

(** [mid] occurs in [tr] as a block of consecutive events. *)
Definition occurs_in (mid tr : list Event) : Prop :=
  exists pre post, tr = pre ++ mid ++ post.

Definition is_nil (err : error) : bool :=
  match err with None => true | Some _ => false end.

(** No reporter event, and no call other than those of validation. *)
Definition quiet (tr : list Event) : Prop :=
  reports_of tr = []
  /\ forallb (fun ce => is_validation_call (fst ce)) (calls_of tr) = true.

(** The request passed validation and the kubeconfig resolved to [config]. *)
Definition validated (w : World) (p : Producer) (o : BrokerOptions)
    (config : RestConfig) : Prop :=
  isValidComponents (stringset.New (Components (BrokerSpec o))) = None
  /\ result (checkGlobalnetConfig w o) = None
  /\ ForCluster p = (config, None).

(** Every collaborator of the descriptor part of [Broker] succeeds. *)
Definition descriptor_store_healthy (w : World) : Prop :=
  (forall c ns f, snd (datafile_NewFromCluster w c ns f) = None)
  /\ (forall f, snd (datafile_BackupIfExists w f) = None)
  /\ (forall c ns, globalnet_ValidateExistingGlobalNetworks w c ns = None)
  /\ (forall c en cidr sz ns, broker_CreateGlobalnetConfigMap w c en cidr sz ns = None)
  /\ (forall d f, SubctlData_WriteToFile w d f = None).

(** ** Concrete scenarios *)

Definition brokerConfig : RestConfig := mkRestConfig "https://broker.example:6443".

Definition kubeconfig : Producer := mkProducer (brokerConfig, nil_error).

Definition clusterData : SubctlData :=
  mkSubctlData "https://broker.example:6443" "0f1e2d3c" false ∅ None.

(** A cluster on which everything succeeds apart from the three given
    answers: RBAC set-up, image resolution, and the load of an earlier
    descriptor. *)
Definition cluster (rbac image load : error) : World :=
  mkWorld "submariner-operator"
    (fun _ size => (if (size =? 0)%N then 65536%N else size, nil_error))
    (fun _ => nil_error)
    (fun _ _ _ _ => rbac)
    (fun version repo => (repo +:+ "/submariner-operator:" +:+ version, image))
    (fun _ _ _ _ => ([Succeeded "Created operator CRDs"], nil_error))
    (fun _ _ _ => nil_error)
    (fun _ => (clusterData, load))
    (fun _ _ _ => (clusterData, nil_error))
    (fun _ => (match load with None => "broker-info.subm.2022_01_01_00_00_00" | Some _ => "" end,
               nil_error))
    (fun _ _ => nil_error)
    (fun _ _ _ _ _ => nil_error)
    (fun _ _ => nil_error).

Definition noFile : error := Some "open broker-info.subm: no such file or directory".

Definition freshCluster : World := cluster nil_error nil_error noFile.
Definition secondRun : World := cluster nil_error nil_error nil_error.
Definition imageMissing : World := cluster nil_error (Some "invalid image version") noFile.
Definition rbacDenied : World := cluster (Some "forbidden") nil_error noFile.

Definition request (comps : list string) (globalnet : bool) (size : N) : BrokerOptions :=
  mkBrokerOptions false "" None "quay.io/submariner" "0.12.0" "submariner-k8s-broker"
    (mkBrokerSpec comps [] globalnet "242.0.0.0/8" size).

(** The first deployment of the spec's example, the same request repeated
    with the descriptor of the first run in place, and a deployment with
    globalnet enabled. *)
Definition firstRun := Broker freshCluster kubeconfig (request [components.Connectivity] false 0).
Definition retriedRun := Broker secondRun kubeconfig (request [components.Connectivity] false 0).
Definition globalnetRun := Broker freshCluster kubeconfig (request [components.Connectivity] true 0).

(** ** Further observations *)

(** The contexts [Broker] and [deploy] wrap their errors in. *)
Definition error_contexts : list string :=
  ["invalid components parameter";
   "invalid GlobalCIDR configuration";
   "the provided kubeconfig is invalid";
   "error setting up broker RBAC";
   "error getting Operator image";
   "error deploying the operator";
   "error deploying the broker";
   "error retrieving preparing the subm data file";
   "error backing up the brokerfile";
   "error validating existing globalCIDR configmap";
   "error creating globalCIDR configmap on Broker";
   "error writing the broker information"].

(** The calls of the globalnet package. *)
Definition is_globalnet_call (c : Callee) : bool :=
  match c with
  | Call_GetValidClusterSize _ _ | Call_IsValidCIDR _
  | Call_ValidateExistingGlobalNetworks _ => true
  | _ => false
  end.

(** A check for existing global networks that passed. *)
Definition is_passed_network_check (ce : Callee * error) : bool :=
  match ce with
  | (Call_ValidateExistingGlobalNetworks _, None) => true
  | _ => false
  end.

(** A reporter event that annotates the unit of work in progress: neither
    [Started] nor [EndedWith]. *)
Definition is_annotation (r : Report) : bool :=
  match r with
  | Succeeded _ | Warned _ | Failed _ => true
  | Started _ | EndedWith _ => false
  end.

(** [submarinerop.Ensure] only annotates: it starts and ends no unit of work
    of its own. *)
Definition operator_only_annotates (w : World) : Prop :=
  forall c ns image debug,
    forallb is_annotation (fst (submarinerop_Ensure w c ns image debug)) = true.

(** ** The command-line reporter (internal/reporter/reporter.go) *)

(** [cliReporter] forwards to a [*cli.Status]; a method of the reporter is
    modelled by the calls it makes on the status.  [fmt.Sprintf] and
    [cli.CheckForError], with the types of their arguments and results, are
    taken as given. *)
Section CLIReporter.
Variable Arg : Type.
Variable Result : Type.
Variable Sprintf : string -> list Arg -> string.
Variable CheckForError : error -> Result.

Inductive StatusCall :=
| Start (message : string)
| QueueSuccessMessage (message : string)
| QueueWarningMessage (message : string)
| QueueFailureMessage (message : string)
| End (output : Result).

Definition cliReporter_Started (message : string) (args : list Arg) : list StatusCall :=
  [Start (Sprintf message args)].

Definition cliReporter_Succeeded (message : string) (args : list Arg) : list StatusCall :=
  if negb (String.eqb message "")
  then [QueueSuccessMessage (Sprintf message args)]
  else [].

Definition cliReporter_Warned (message : string) : list StatusCall :=
  if negb (String.eqb message "") then [QueueWarningMessage message] else [].

Definition cliReporter_Failed (message : string) : list StatusCall :=
  if negb (String.eqb message "") then [QueueFailureMessage message] else [].

Definition cliReporter_EndedWith (err : error) : list StatusCall :=
  [End (CheckForError err)].

(** The reporter driven by one event of a run; [Broker] and [deploy] format
    their messages themselves and pass no further arguments. *)
Definition cliReporter_report (r : Report) : list StatusCall :=
  match r with
  | Started message => cliReporter_Started message []
  | Succeeded message => cliReporter_Succeeded message []
  | Failed message => cliReporter_Failed message
  | EndedWith err => cliReporter_EndedWith err
  | Warned message => cliReporter_Warned message
  end.

(** The calls on the status over a whole trace. *)
Definition status_calls (tr : list Event) : list StatusCall :=
  flat_map cliReporter_report (reports_of tr).

Definition is_Start (c : StatusCall) : bool :=
  match c with Start _ => true | _ => false end.
Definition is_End (c : StatusCall) : bool :=
  match c with End _ => true | _ => false end.

(** Every [End] has a [Start] before it with no other [End] in between;
    [started] tells whether a [Start] is pending at the beginning. *)
Fixpoint ends_follow_starts (started : bool) (cs : list StatusCall) : bool :=
  match cs with
  | [] => true
  | Start _ :: rest => ends_follow_starts true rest
  | End _ :: rest => started && ends_follow_starts false rest
  | _ :: rest => ends_follow_starts started rest
  end.
End CLIReporter.

Arguments Start {Result} message.
Arguments QueueSuccessMessage {Result} message.
Arguments QueueWarningMessage {Result} message.
Arguments QueueFailureMessage {Result} message.
Arguments End {Result} output.
Arguments cliReporter_Started {Arg Result} Sprintf message args.
Arguments cliReporter_Succeeded {Arg Result} Sprintf message args.
Arguments cliReporter_Warned {Result} message.
Arguments cliReporter_Failed {Result} message.
Arguments cliReporter_EndedWith {Result} CheckForError err.
Arguments cliReporter_report {Arg Result} Sprintf CheckForError r.
Arguments status_calls {Arg Result} Sprintf CheckForError tr.
Arguments is_Start {Result} c.
Arguments is_End {Result} c.
Arguments ends_follow_starts {Result} started cs.

(** The messages of the [Started] events of a list of reports, in order. *)
Fixpoint started_messages (rs : list Report) : list string :=
  match rs with
  | [] => []
  | Started message :: rest => message :: started_messages rest
  | _ :: rest => started_messages rest
  end.

(** The units of work [deploy] and [Broker] announce, in program order. *)
Definition announced_units : list string :=
  ["Setting up broker RBAC";
   "Deploying the Submariner operator";
   "Deploying the broker";
   "Creating " +:+ brokerDetailsFilename +:+ " file"].

(** The failure event that follows a bracketed call that came back with
    [cause]: [EndedWith] that error, or, for the broker resource, [Failed]
    with its fixed message. *)
Definition announcement (c : Callee) (cause : string) : Report :=
  match c with
  | Call_brokercr_Ensure _ _ => Failed "Broker deployment failed"
  | _ => EndedWith (Some cause)
  end.

(** A cluster that refuses the creation of the addressing configuration;
    everything else succeeds and there is no earlier descriptor. *)
Definition configMapDenied : World :=
  mkWorld "submariner-operator"
    (fun _ size => (if (size =? 0)%N then 65536%N else size, nil_error))
    (fun _ => nil_error)
    (fun _ _ _ _ => nil_error)
    (fun version repo => (repo +:+ "/submariner-operator:" +:+ version, nil_error))
    (fun _ _ _ _ => ([Succeeded "Created operator CRDs"], nil_error))
    (fun _ _ _ => nil_error)
    (fun _ => (clusterData, noFile))
    (fun _ _ _ => (clusterData, nil_error))
    (fun _ => ("", nil_error))
    (fun _ _ => nil_error)
    (fun _ _ _ _ _ => Some "configmaps is forbidden")
    (fun _ _ => nil_error).

(** * Properties *)

Example isValidComponents_bogus :
  isValidComponents (stringset.New ["bogus"]) = Some "unknown component: bogus".
Proof. vm_compute. reflexivity. Qed.

Example isValidComponents_both :
  isValidComponents (stringset.New ["connectivity"; "service-discovery"; "connectivity"]) = None.
Proof. vm_compute. reflexivity. Qed.


(** ** Component validation *)

Lemma firstUnknown_nil_iff (valid : gset string) (elems : list string) :
  firstUnknown valid elems = None <-> Forall (fun c => c ∈ valid) elems.
Proof.
  induction elems as [|c rest IH]; simpl.
  - split; [constructor | reflexivity].
  - unfold stringset.Contains. case_bool_decide as Hc; simpl.
    + rewrite IH, Forall_cons. tauto.
    + split; [discriminate | intros H; inversion H; contradiction].
Qed.

Lemma firstUnknown_error (valid : gset string) (elems : list string) (m : string) :
  firstUnknown valid elems = Some m ->
  exists c, c ∈ elems ∧ (c ∉ valid) ∧ m = "unknown component: " +:+ c.
Proof.
  induction elems as [|c rest IH]; simpl; [discriminate|].
  unfold stringset.Contains. case_bool_decide as Hc; simpl.
  - intros H. destruct (IH H) as (c' & Hin & Hout & ->).
    exists c'. split; [right; exact Hin | auto].
  - intros [= <-]. exists c. split; [left | auto].
Qed.

Lemma elem_of_valid (c : string) :
  c ∈ stringset.New ValidComponents <-> c ∈ ValidComponents.
Proof. unfold stringset.New. apply elem_of_list_to_set. Qed.

Lemma Size_lt_1 (s : gset string) : (stringset.Size s <? 1)%nat = true <-> s = ∅.
Proof.
  unfold stringset.Size. rewrite Nat.ltb_lt, <- (leibniz_equiv_iff s ∅), <- size_empty_iff. lia.
Qed.

Lemma isValidComponents_nil_iff (s : gset string) :
  isValidComponents s = None <-> s ≠ ∅ /\ forall c, c ∈ s -> c ∈ ValidComponents.
Proof.
  unfold isValidComponents.
  destruct (stringset.Size s <? 1)%nat eqn:Hsz.
  - apply Size_lt_1 in Hsz. split; [discriminate | intros [Hne _]; contradiction].
  - assert (s ≠ ∅) as Hne.
    { intros He. apply Size_lt_1 in He. congruence. }
    rewrite firstUnknown_nil_iff, Forall_forall. unfold stringset.Elements.
    split.
    + intros H. split; [exact Hne|]. intros c Hc.
      apply elem_of_valid, H, elem_of_elements, Hc.
    + intros [_ H] c Hc. apply elem_of_valid, H, elem_of_elements, Hc.
Qed.

(** C4: [isValidComponents] returns no error on every non-empty set drawn
    from the vocabulary {service-discovery, connectivity}; it returns an
    error on the empty set, and on every set with an element outside the
    vocabulary. *)
Theorem isValidComponents_correct (s : gset string) :
  (s ≠ ∅ -> (forall c, c ∈ s -> c ∈ ValidComponents) -> isValidComponents s = None)
  /\ (s = ∅ ->
      isValidComponents s = Some "at least one component must be provided for deployment")
  /\ (forall c, c ∈ s -> c ∉ ValidComponents ->
        exists m, isValidComponents s = Some m).
Proof.
  split; [|split].
  - intros Hne Hall. apply isValidComponents_nil_iff. auto.
  - intros ->. reflexivity.
  - intros c Hin Hout. destruct (isValidComponents s) as [m|] eqn:E; [eauto|].
    apply isValidComponents_nil_iff in E as [_ Hall]. destruct (Hout (Hall c Hin)).
Qed.

Lemma isValidComponents_correct_witness :
  isValidComponents {[components.Connectivity]} = None
  /\ (exists m, isValidComponents {[components.Connectivity; "bogus"]} = Some m).
Proof.
  split.
  - apply (proj1 (isValidComponents_correct {[components.Connectivity]})).
    + intros H. apply (f_equal size) in H. vm_compute in H. discriminate.
    + intros c Hc. apply elem_of_singleton in Hc. subst c. right. left.
  - apply (proj2 (proj2 (isValidComponents_correct {[components.Connectivity; "bogus"]}))
             "bogus").
    + apply elem_of_union_r, elem_of_singleton. reflexivity.
    + intros H. apply list_elem_of_In in H. simpl in H.
      destruct H as [H|[H|[]]]; discriminate.
Defined.

(** ** Traces *)

Lemma calls_of_app (t1 t2 : list Event) :
  calls_of (t1 ++ t2) = calls_of t1 ++ calls_of t2.
Proof.
  induction t1 as [|[r|c e] t1 IH]; simpl; [reflexivity | exact IH | now rewrite IH].
Qed.

Lemma calls_of_reports (rs : list Report) : calls_of (map Reported rs) = [].
Proof. induction rs as [|r rs IH]; simpl; [reflexivity | exact IH]. Qed.

Lemma reports_of_app (t1 t2 : list Event) :
  reports_of (t1 ++ t2) = reports_of t1 ++ reports_of t2.
Proof.
  induction t1 as [|[r|c e] t1 IH]; simpl; [reflexivity | now rewrite IH | exact IH].
Qed.

Lemma reports_of_reports (rs : list Report) : reports_of (map Reported rs) = rs.
Proof. induction rs as [|r rs IH]; simpl; [reflexivity | now rewrite IH]. Qed.

Lemma precedesb_true {A} (p q : A -> bool) (l : list A) :
  precedesb p q l = true <-> precedes p q l.
Proof.
  induction l as [|a l IH]; simpl.
  - split; [discriminate|]. intros (l1 & x & l2 & y & l3 & E & _).
    destruct l1; discriminate.
  - rewrite orb_true_iff, andb_true_iff, existsb_exists, IH. split.
    + intros [[Hp (y & Hin & Hq)]|(l1 & x & l2 & y & l3 & -> & Hp & Hq)].
      * apply in_split in Hin as (l2 & l3 & ->).
        exists [], a, l2, y, l3. auto.
      * exists (a :: l1), x, l2, y, l3. auto.
    + intros (l1 & x & l2 & y & l3 & E & Hp & Hq). destruct l1 as [|b l1].
      * injection E as -> ->. left. split; [exact Hp|].
        exists y. split; [apply in_or_app; right; left; reflexivity | exact Hq].
      * injection E as -> ->. right. exists l1, x, l2, y, l3. auto.
Qed.

Lemma increasing_app_cons (l1 : list nat) (x : nat) (l2 : list nat) :
  increasing (l1 ++ x :: l2) = true -> Forall (fun y => x < y)%nat l2.
Proof.
  induction l1 as [|a l1 IH]; simpl; intros H; apply andb_true_iff in H as [H1 H2].
  - apply Forall_forall. intros y Hy. rewrite forallb_forall in H1.
    apply Nat.ltb_lt, H1, list_elem_of_In, Hy.
  - auto.
Qed.

Lemma increasing_order {A} (f : A -> nat) (l l1 : list A) (x : A) (l2 : list A)
    (y : A) (l3 : list A) :
  increasing (map f l) = true -> l = l1 ++ x :: l2 ++ y :: l3 -> (f x < f y)%nat.
Proof.
  intros H ->. rewrite map_app in H. simpl in H.
  apply increasing_app_cons in H. rewrite map_app, Forall_app in H.
  destruct H as [_ H]. simpl in H. now inversion H.
Qed.

Lemma stops_at_failure_last (l pre : list (Callee * error)) (c : Callee)
    (cause : string) (post : list (Callee * error)) :
  stops_at_failure l = true -> l = pre ++ (c, Some cause) :: post ->
  is_load c = false -> post = [].
Proof.
  intros H -> Hc. induction pre as [|[c' [m|]] pre IH]; simpl in H.
  - rewrite Hc in H. destruct post; [reflexivity | discriminate].
  - apply andb_true_iff in H as [_ H]. auto.
  - auto.
Qed.

(** ** Running the orchestrator symbolically *)

Ltac unfold_run :=
  unfold validated in *;
  unfold Broker, deploy, checkGlobalnetConfig, restConfigProducer_ForCluster,
    GetValidClusterSize, IsValidCIDR, brokerEnsure, imageForOperator,
    submarineropEnsure, brokercrEnsure, NewFromFile, NewFromCluster,
    BackupIfExists, ValidateExistingGlobalNetworks, CreateGlobalnetConfigMap,
    WriteToFile, reporter.Started, reporter.Succeeded, reporter.Failed,
    reporter.EndedWith, reporter.Warned, get, modify, emit, emits,
    mbind, mret, M_bind, M_ret, bind, ret, result, options_after, trace,
    nil_error, Wrap, is_nil in *.

Ltac simpl_run :=
  cbn -[isValidComponents stringset.New stringset.Add stringset.Contains
        String.append brokerDetailsFilename] in *.

(** One step: case analysis on a scrutinee that contains no other match. *)
Ltac step_run :=
  match goal with
  | |- context [match ?x with _ => _ end] =>
      lazymatch x with
      | context [match _ with _ => _ end] => fail
      | _ => destruct x eqn:?
      end
  end.

Ltac run_cases :=
  unfold_run; simpl_run; repeat (step_run; simpl_run; try discriminate);
  rewrite ?calls_of_app, ?calls_of_reports, ?reports_of_app, ?reports_of_reports;
  simpl_run; repeat (step_run; simpl_run; try discriminate).

(** Search for the place where a trace ends with the given events. *)
Ltac find_suffix :=
  solve [apply suffix_cons_r; find_suffix
        | apply suffix_app_r; find_suffix
        | simpl; reflexivity].

Lemma Broker_calls_increasing (w : World) (p : Producer) (o : BrokerOptions) :
  increasing (map rank (map fst (calls_of (trace (Broker w p o))))) = true.
Proof. run_cases; reflexivity. Qed.

Lemma Broker_stops_at_failure (w : World) (p : Producer) (o : BrokerOptions) :
  stops_at_failure (calls_of (trace (Broker w p o))) = true.
Proof. run_cases; reflexivity. Qed.

Lemma Broker_failure_returned (w : World) (p : Producer) (o : BrokerOptions) :
  result (Broker w p o) = None ->
  forallb (fun ce => is_load (fst ce) || is_nil (snd ce))
    (calls_of (trace (Broker w p o))) = true.
Proof. run_cases; intros; try discriminate; reflexivity. Qed.

(** ** Order of the phases *)

(** C8: the collaborators are called in the order of the program text, each
    at most once; no call follows one that came back with an error (the
    descriptor load apart) and the run then returns an error; when the RBAC
    set-up fails, the calls of the run are those of validation and the RBAC
    call, and nothing else. *)
Theorem Broker_in_order_until_first_failure (w : World) (p : Producer)
    (o : BrokerOptions) :
  (forall l1 x l2 y l3,
      calls_of (trace (Broker w p o)) = l1 ++ x :: l2 ++ y :: l3 ->
      (rank (fst x) < rank (fst y))%nat)
  /\ (forall pre c cause post,
        calls_of (trace (Broker w p o)) = pre ++ (c, Some cause) :: post ->
        is_load c = false ->
        post = [] /\ result (Broker w p o) <> None)
  /\ (forall config cause,
        validated w p o config ->
        broker_Ensure w config (Components (BrokerSpec o)) false (BrokerNamespace o)
          = Some cause ->
        result (Broker w p o) = Some ("error setting up broker RBAC: " +:+ cause)
        /\ calls_of (trace (Broker w p o)) =
             calls_of (trace (checkGlobalnetConfig w o))
             ++ [(Call_ForCluster, None);
                 (Call_broker_Ensure (Components (BrokerSpec o)) false
                    (BrokerNamespace o), Some cause)]).
Proof.
  split; [|split].
  - intros l1 x l2 y l3 E.
    apply (increasing_order (fun ce => rank (fst ce)) _ _ _ _ _ _
             ltac:(rewrite <- map_map; apply Broker_calls_increasing) E).
  - intros pre c cause post E Hc.
    pose proof (stops_at_failure_last _ _ _ _ _ (Broker_stops_at_failure w p o) E Hc)
      as ->.
    split; [reflexivity|]. intros Hr. apply Broker_failure_returned in Hr.
    rewrite E, forallb_app in Hr. simpl in Hr. rewrite Hc in Hr.
    apply andb_true_iff in Hr as [_ Hr]. discriminate.
  - intros config cause Hv Hrbac. revert Hv Hrbac.
    run_cases; intros (Hv1 & Hv2 & Hv3) Hrbac; try discriminate;
      inversion Hv3; subst; try congruence;
      match goal with
      | H1 : ?x = Some ?a, H2 : ?x = Some ?b |- _ =>
          assert (a = b) as -> by congruence
      end;
      split; reflexivity.
Qed.

Lemma Broker_in_order_until_first_failure_witness :
  result (Broker rbacDenied kubeconfig (request [components.Connectivity] true 0))
    = Some "error setting up broker RBAC: forbidden"
  /\ calls_of (trace (Broker rbacDenied kubeconfig
                        (request [components.Connectivity] true 0)))
     = [(Call_GetValidClusterSize "242.0.0.0/8" 0, None);
        (Call_IsValidCIDR "242.0.0.0/8", None);
        (Call_ForCluster, None);
        (Call_broker_Ensure [components.Connectivity] false "submariner-k8s-broker",
         Some "forbidden")].
Proof.
  apply (proj2 (proj2 (Broker_in_order_until_first_failure rbacDenied kubeconfig
                         (request [components.Connectivity] true 0)))
           brokerConfig "forbidden").
  - repeat split; vm_compute; reflexivity.
  - reflexivity.
Defined.




(** ** Validation failures *)

Lemma Broker_invalid_components (w : World) (p : Producer) (o : BrokerOptions)
    (cause : string) :
  isValidComponents (stringset.New (Components (BrokerSpec o))) = Some cause ->
  result (Broker w p o) = Some ("invalid components parameter: " +:+ cause)
  /\ trace (Broker w p o) = [].
Proof.
  unfold Broker, get, mbind, M_bind, bind, mret, M_ret, ret, result, trace.
  intros ->. split; reflexivity.
Qed.

(** C6: when component validation, globalnet validation or the kubeconfig
    resolution fails, [Broker] returns that error wrapped, no reporter event
    has fired, and no collaborator other than those of validation has been
    called. *)
Theorem Broker_validation_failure (w : World) (p : Producer) (o : BrokerOptions) :
  (forall cause,
      isValidComponents (stringset.New (Components (BrokerSpec o))) = Some cause ->
      result (Broker w p o) = Some ("invalid components parameter: " +:+ cause)
      /\ trace (Broker w p o) = [])
  /\ (forall cause,
        isValidComponents (stringset.New (Components (BrokerSpec o))) = None ->
        result (checkGlobalnetConfig w o) = Some cause ->
        result (Broker w p o) = Some ("invalid GlobalCIDR configuration: " +:+ cause)
        /\ quiet (trace (Broker w p o)))
  /\ (forall cause,
        isValidComponents (stringset.New (Components (BrokerSpec o))) = None ->
        result (checkGlobalnetConfig w o) = None ->
        snd (ForCluster p) = Some cause ->
        result (Broker w p o) = Some ("the provided kubeconfig is invalid: " +:+ cause)
        /\ quiet (trace (Broker w p o))).
Proof.
  unfold quiet. split; [|split]; intros cause.
  - apply Broker_invalid_components.
  - run_cases; intros H1 H2; simplify_eq; repeat split; reflexivity.
  - run_cases; intros H1 H2 H3; simplify_eq; repeat split; reflexivity.
Qed.

Lemma Broker_validation_failure_witness :
  result (Broker freshCluster kubeconfig (request ["bogus"] false 0))
    = Some "invalid components parameter: unknown component: bogus"
  /\ trace (Broker freshCluster kubeconfig (request ["bogus"] false 0)) = [].
Proof.
  apply (proj1 (Broker_validation_failure freshCluster kubeconfig
                  (request ["bogus"] false 0)) "unknown component: bogus").
  vm_compute. reflexivity.
Defined.

(** ** Errors of the provisioning phases *)

(** C1: the code does not do what the claim says.  When the operator image
    cannot be resolved, and when the cluster refuses the addressing
    configuration, the request having passed validation, [Broker] returns
    the wrapped error and the reporter is told of no failure: the unit of
    work started last is never ended.  The same holds on the returns after
    [NewFromCluster], [BackupIfExists] and
    [ValidateExistingGlobalNetworks]. *)
Theorem provisioning_errors_not_announced :
  (validated imageMissing kubeconfig (request [components.Connectivity] false 0)
     brokerConfig
   /\ result (Broker imageMissing kubeconfig (request [components.Connectivity] false 0))
      = Some "error getting Operator image: invalid image version"
   /\ reports_of (trace (Broker imageMissing kubeconfig
                           (request [components.Connectivity] false 0)))
      = [Started "Setting up broker RBAC"; EndedWith None;
         Started "Deploying the Submariner operator"]
   /\ existsb is_failure
        (reports_of (trace (Broker imageMissing kubeconfig
                              (request [components.Connectivity] false 0)))) = false)
  /\ (validated configMapDenied kubeconfig (request [components.Connectivity] false 0)
        brokerConfig
      /\ result (Broker configMapDenied kubeconfig
                   (request [components.Connectivity] false 0))
         = Some "error creating globalCIDR configmap on Broker: configmaps is forbidden"
      /\ reports_of (trace (Broker configMapDenied kubeconfig
                              (request [components.Connectivity] false 0)))
         = [Started "Setting up broker RBAC"; EndedWith None;
            Started "Deploying the Submariner operator";
            Succeeded "Created operator CRDs"; EndedWith None;
            Started "Deploying the broker";
            Succeeded "The broker has been deployed";
            Started "Creating broker-info.subm file";
            Succeeded "A new IPsec PSK will be generated for broker-info.subm"]
      /\ existsb is_failure
           (reports_of (trace (Broker configMapDenied kubeconfig
                                 (request [components.Connectivity] false 0)))) = false).
Proof. repeat split; vm_compute; reflexivity. Qed.

Lemma Broker_last_call_failed (w : World) (p : Producer) (o : BrokerOptions)
    (c : Callee) (cause : string) :
  last (calls_of (trace (Broker w p o))) = Some (c, Some cause) ->
  exists message,
    phase_message c = Some message
    /\ result (Broker w p o) = Some (message +:+ ": " +:+ cause)
    /\ (is_bracketed c = true ->
        [Called c (Some cause); Reported (announcement c cause)]
          `suffix_of` trace (Broker w p o)).
Proof.
  run_cases; intros Hl; simplify_eq;
    eexists; (split; [reflexivity|]); (split; [reflexivity|]);
    intros Hb; try discriminate;
    rewrite ?app_nil_r, <- ?app_assoc; find_suffix.
Qed.

(** X17: when a collaborator call of a run comes back with an error (the
    descriptor load apart), no call follows it and [Broker] returns that
    error behind the context of its phase; when the call is the RBAC
    set-up, the operator installation or the write of the descriptor, the
    trace ends with the call followed by [EndedWith] of that very error, and
    when it is the broker resource, with the call followed by [Failed] with
    the message "Broker deployment failed". *)
Theorem Broker_error_wrapped_and_announced (w : World) (p : Producer)
    (o : BrokerOptions) (pre : list (Callee * error)) (c : Callee)
    (cause : string) (post : list (Callee * error)) :
  calls_of (trace (Broker w p o)) = pre ++ (c, Some cause) :: post ->
  is_load c = false ->
  exists message,
    phase_message c = Some message
    /\ result (Broker w p o) = Some (message +:+ ": " +:+ cause)
    /\ post = []
    /\ (is_bracketed c = true ->
        [Called c (Some cause); Reported (announcement c cause)]
          `suffix_of` trace (Broker w p o)).
Proof.
  intros E Hc.
  pose proof (stops_at_failure_last _ _ _ _ _ (Broker_stops_at_failure w p o) E Hc)
    as ->.
  assert (last (calls_of (trace (Broker w p o))) = Some (c, Some cause)) as Hl
    by (rewrite E; apply last_snoc).
  destruct (Broker_last_call_failed w p o c cause Hl) as (message & Hm & Hr & Ha).
  exists message. auto.
Qed.

Lemma Broker_error_wrapped_and_announced_witness :
  exists message,
    phase_message
      (Call_broker_Ensure [components.Connectivity] false "submariner-k8s-broker")
      = Some message
    /\ result (Broker rbacDenied kubeconfig (request [components.Connectivity] false 0))
       = Some (message +:+ ": " +:+ "forbidden")
    /\ @nil (Callee * error) = []
    /\ (is_bracketed
          (Call_broker_Ensure [components.Connectivity] false "submariner-k8s-broker")
        = true ->
        [Called (Call_broker_Ensure [components.Connectivity] false
                   "submariner-k8s-broker") (Some "forbidden");
         Reported (EndedWith (Some "forbidden"))]
          `suffix_of` trace (Broker rbacDenied kubeconfig
                               (request [components.Connectivity] false 0))).
Proof.
  apply (Broker_error_wrapped_and_announced rbacDenied kubeconfig
           (request [components.Connectivity] false 0)
           [(Call_ForCluster, nil_error)]).
  - reflexivity.
  - reflexivity.
Defined.

(** ** Components and the globalnet component *)

Lemma globalnet_not_valid : components.Globalnet ∉ ValidComponents.
Proof.
  intros H. apply list_elem_of_In in H. simpl in H.
  destruct H as [H|[H|[]]]; discriminate.
Qed.

Lemma valid_request_without_globalnet (comps : list string) :
  isValidComponents (stringset.New comps) = None -> components.Globalnet ∉ comps.
Proof.
  intros Hv Hin. apply isValidComponents_nil_iff in Hv as [_ Hall].
  apply globalnet_not_valid, Hall. unfold stringset.New.
  apply elem_of_list_to_set, Hin.
Qed.

Ltac invert_elem_of H :=
  repeat (apply elem_of_cons in H as [H|H]; [simplify_eq|]);
  try (apply elem_of_nil in H; destruct H).

(** C3 as stated fails: with globalnet enabled, the spec handed to
    [brokercr.Ensure] lists the requested components only. *)
Lemma broker_resource_without_globalnet :
  GlobalnetEnabled (BrokerSpec (request [components.Connectivity] true 0)) = true
  /\ (Call_brokercr_Ensure "submariner-k8s-broker"
        (mkBrokerSpec [components.Connectivity] [] true "242.0.0.0/8" 65536),
      nil_error) ∈ calls_of (trace globalnetRun)
  /\ components.Globalnet ∉ [components.Connectivity].
Proof.
  split; [reflexivity|]. split.
  - vm_compute. do 6 right. left.
  - intros H. apply list_elem_of_In in H. simpl in H. destruct H as [H|[]].
    discriminate.
Qed.

(** C3, amended: the spec handed to [brokercr.Ensure] is the [BrokerSpec] of
    the options as [checkGlobalnetConfig] left them: the component list and
    the globalnet flag of the request, unchanged; the globalnet component is
    not in that list. *)
Theorem broker_resource_carries_request_components (w : World) (p : Producer)
    (o : BrokerOptions) (ns : string) (spec : submarinerv1a1.BrokerSpec)
    (err : error) :
  (Call_brokercr_Ensure ns spec, err) ∈ calls_of (trace (Broker w p o)) ->
  ns = BrokerNamespace o
  /\ spec = BrokerSpec (options_after (checkGlobalnetConfig w o))
  /\ Components spec = Components (BrokerSpec o)
  /\ GlobalnetEnabled spec = GlobalnetEnabled (BrokerSpec o)
  /\ components.Globalnet ∉ Components spec.
Proof.
  intros H.
  assert (isValidComponents (stringset.New (Components (BrokerSpec o))) = None) as Hv.
  { revert H. run_cases; intros H; try reflexivity; invert_elem_of H. }
  pose proof (valid_request_without_globalnet _ Hv) as Hg.
  revert H Hg. clear Hv.
  run_cases; intros H Hg; invert_elem_of H; repeat split; assumption.
Qed.

Lemma broker_resource_carries_request_components_witness :
  "submariner-k8s-broker" = BrokerNamespace (request [components.Connectivity] true 0)
  /\ mkBrokerSpec [components.Connectivity] [] true "242.0.0.0/8" 65536 =
     BrokerSpec (options_after (checkGlobalnetConfig freshCluster
                                  (request [components.Connectivity] true 0)))
  /\ [components.Connectivity] = [components.Connectivity]
  /\ true = true
  /\ components.Globalnet ∉ [components.Connectivity].
Proof.
  apply (broker_resource_carries_request_components freshCluster kubeconfig
           (request [components.Connectivity] true 0) "submariner-k8s-broker"
           (mkBrokerSpec [components.Connectivity] [] true "242.0.0.0/8" 65536)
           nil_error).
  vm_compute. do 6 right. left.
Defined.

(** C7: a request that lists the globalnet component fails component
    validation with an unknown-component error, which [Broker] returns before
    anything else happens; with globalnet enabled, the component set of the
    descriptor that is written is the requested set with the globalnet
    component added: this holds of every write, a run that returns no error
    has ended with such a write, and a run in which validation, [deploy] and
    the collaborators of the descriptor part succeed returns no error and
    ends with such a write. *)
Theorem globalnet_component_only_derived (w : World) (p : Producer)
    (o : BrokerOptions) :
  (components.Globalnet ∈ Components (BrokerSpec o) ->
   exists c,
     c ∈ Components (BrokerSpec o) ∧ (c ∉ ValidComponents)
     ∧ isValidComponents (stringset.New (Components (BrokerSpec o)))
       = Some ("unknown component: " +:+ c)
     ∧ result (Broker w p o)
       = Some ("invalid components parameter: unknown component: " +:+ c)
     ∧ trace (Broker w p o) = [])
  /\ (GlobalnetEnabled (BrokerSpec o) = true ->
      forall d f err,
        (Call_WriteToFile d f, err) ∈ calls_of (trace (Broker w p o)) ->
        DataComponents d
        = stringset.New (Components (BrokerSpec o)) ∪ {[components.Globalnet]}
        ∧ components.Globalnet ∈ DataComponents d)
  /\ (GlobalnetEnabled (BrokerSpec o) = true ->
      result (Broker w p o) = None ->
      exists d,
        last (calls_of (trace (Broker w p o)))
        = Some (Call_WriteToFile d brokerDetailsFilename, nil_error)
        ∧ DataComponents d
          = stringset.New (Components (BrokerSpec o)) ∪ {[components.Globalnet]}
        ∧ components.Globalnet ∈ DataComponents d)
  /\ (forall config,
        GlobalnetEnabled (BrokerSpec o) = true ->
        validated w p o config ->
        result (deploy w config (options_after (checkGlobalnetConfig w o))) = None ->
        descriptor_store_healthy w ->
        result (Broker w p o) = None
        /\ exists d,
             last (calls_of (trace (Broker w p o)))
             = Some (Call_WriteToFile d brokerDetailsFilename, nil_error)
             ∧ DataComponents d
               = stringset.New (Components (BrokerSpec o)) ∪ {[components.Globalnet]}
             ∧ components.Globalnet ∈ DataComponents d).
Proof.
  split; [|split; [|split]].
  - intros Hin.
    destruct (isValidComponents (stringset.New (Components (BrokerSpec o))))
      as [m|] eqn:Hv.
    + pose proof Hv as Hv'. unfold isValidComponents in Hv'.
      destruct (stringset.Size _ <? 1)%nat eqn:Hsz.
      { apply Size_lt_1 in Hsz. exfalso.
        assert (components.Globalnet ∈ stringset.New (Components (BrokerSpec o))) as Hs
          by (apply elem_of_list_to_set, Hin).
        rewrite Hsz in Hs. set_solver. }
      apply firstUnknown_error in Hv' as (c & Hc & Hout & ->).
      exists c. split.
      { apply elem_of_elements in Hc. apply elem_of_list_to_set in Hc. exact Hc. }
      split; [rewrite <- elem_of_valid; exact Hout|]. split; [reflexivity|].
      apply Broker_invalid_components, Hv.
    + destruct (valid_request_without_globalnet _ Hv Hin).
  - intros Hg d f err H. revert Hg H.
    run_cases; intros Hg H; try discriminate; invert_elem_of H;
      (split; [reflexivity | unfold stringset.Add; set_solver]).
  - intros Hg. revert Hg.
    run_cases; intros Hg Hr; try discriminate; simplify_eq;
      eexists; (split; [reflexivity|]);
      (split; [reflexivity | unfold stringset.Add; set_solver]).
  - intros config Hg Hv Hd Hh. revert Hg Hv Hd Hh. unfold descriptor_store_healthy.
    run_cases; intros Hg (Hv1 & Hv2 & Hv3) Hd (H1 & H2 & H3 & H4 & H5);
      try discriminate; simplify_eq;
      repeat match goal with
        | E : datafile_NewFromCluster w ?c ?n ?f = _ |- _ =>
            let X := fresh "X" in
            pose proof (H1 c n f) as X; rewrite E in X; clear E; simplify_eq
        | E : datafile_BackupIfExists w ?f = _ |- _ =>
            let X := fresh "X" in
            pose proof (H2 f) as X; rewrite E in X; clear E; simplify_eq
        end;
      first
        [ exfalso; congruence
        | (split; [reflexivity|]); eexists; (split; [reflexivity|]);
          (split; [reflexivity | unfold stringset.Add; set_solver]) ].
Qed.

Lemma globalnet_component_only_derived_witness :
  (exists c,
     c ∈ [components.Globalnet] ∧ (c ∉ ValidComponents)
     ∧ isValidComponents (stringset.New [components.Globalnet])
       = Some ("unknown component: " +:+ c)
     ∧ result (Broker freshCluster kubeconfig (request [components.Globalnet] false 0))
       = Some ("invalid components parameter: unknown component: " +:+ c)
     ∧ trace (Broker freshCluster kubeconfig (request [components.Globalnet] false 0))
       = [])
  /\ (forall d f err,
        (Call_WriteToFile d f, err) ∈ calls_of (trace globalnetRun) ->
        DataComponents d
        = stringset.New [components.Connectivity] ∪ {[components.Globalnet]}
        ∧ components.Globalnet ∈ DataComponents d)
  /\ (exists d,
        last (calls_of (trace globalnetRun))
        = Some (Call_WriteToFile d brokerDetailsFilename, nil_error)
        ∧ DataComponents d
          = stringset.New [components.Connectivity] ∪ {[components.Globalnet]}
        ∧ components.Globalnet ∈ DataComponents d)
  /\ (result globalnetRun = None
      /\ exists d,
           last (calls_of (trace globalnetRun))
           = Some (Call_WriteToFile d brokerDetailsFilename, nil_error)
           ∧ DataComponents d
             = stringset.New [components.Connectivity] ∪ {[components.Globalnet]}
           ∧ components.Globalnet ∈ DataComponents d).
Proof.
  split; [|split; [|split]].
  - apply (proj1 (globalnet_component_only_derived freshCluster kubeconfig
                    (request [components.Globalnet] false 0))).
    left.
  - apply (proj1 (proj2 (globalnet_component_only_derived freshCluster kubeconfig
                           (request [components.Connectivity] true 0)))).
    reflexivity.
  - apply (proj1 (proj2 (proj2 (globalnet_component_only_derived freshCluster
                                  kubeconfig
                                  (request [components.Connectivity] true 0))))).
    + reflexivity.
    + vm_compute. reflexivity.
  - apply (proj2 (proj2 (proj2 (globalnet_component_only_derived freshCluster
                                  kubeconfig
                                  (request [components.Connectivity] true 0))))
             brokerConfig).
    + reflexivity.
    + repeat split; vm_compute; reflexivity.
    + vm_compute. reflexivity.
    + repeat split; intros; reflexivity.
Defined.

(** ** Reuse of the pre-shared key *)

Lemma occurs_in_cons (mid : list Event) (x : Event) (tr : list Event) :
  occurs_in mid tr -> occurs_in mid (x :: tr).
Proof. intros (pre & post & ->). exists (x :: pre), post. reflexivity. Qed.

Lemma occurs_in_app_r (mid l tr : list Event) :
  occurs_in mid tr -> occurs_in mid (l ++ tr).
Proof.
  intros (pre & post & ->). exists (l ++ pre), post. now rewrite <- app_assoc.
Qed.

Ltac find_block :=
  solve [exists []; eexists; simpl; reflexivity
        | apply occurs_in_cons; find_block
        | apply occurs_in_app_r; find_block].

(** C5: after a successful [deploy], with no descriptor path pinned in the
    request: when the descriptor at the conventional place loads, the
    options' path is set to it, a warning that the key is reused is
    reported, and the descriptor is built from that file; when the load
    fails, whatever the error, the new-key message is reported, the
    descriptor is built with no file, the path stays empty, and the run
    returns no error if the remaining collaborators succeed. *)
Theorem descriptor_reuse_decision (w : World) (p : Producer) (o : BrokerOptions)
    (config : RestConfig) :
  validated w p o config ->
  result (deploy w config (options_after (checkGlobalnetConfig w o))) = None ->
  IpsecSubmFile o = "" ->
  (snd (datafile_NewFromFile w brokerDetailsFilename) = None ->
   IpsecSubmFile (options_after (Broker w p o)) = brokerDetailsFilename
   /\ exists err,
       occurs_in
         [Called (Call_NewFromFile brokerDetailsFilename) None;
          Reported (Warned "Reusing IPsec PSK from existing broker-info.subm");
          Called (Call_NewFromCluster (BrokerNamespace o) brokerDetailsFilename) err]
         (trace (Broker w p o)))
  /\ (forall cause,
        snd (datafile_NewFromFile w brokerDetailsFilename) = Some cause ->
        IpsecSubmFile (options_after (Broker w p o)) = ""
        /\ (exists err,
              occurs_in
                [Called (Call_NewFromFile brokerDetailsFilename) (Some cause);
                 Reported (Succeeded
                             "A new IPsec PSK will be generated for broker-info.subm");
                 Called (Call_NewFromCluster (BrokerNamespace o) "") err]
                (trace (Broker w p o)))
        /\ (descriptor_store_healthy w -> result (Broker w p o) = None)).
Proof.
  intros Hv Hd Hfile.
  destruct o as [dbg file cm repo ver ns spec]. simpl in Hfile. subst file.
  split.
  - intros Hload. revert Hv Hd Hload.
    run_cases; intros (Hv1 & Hv2 & Hv3) Hd Hload; simplify_eq;
      (split; [reflexivity|]); eexists; rewrite ?app_nil_r, <- ?app_assoc;
      find_block.
  - intros cause Hload. revert Hv Hd Hload. unfold descriptor_store_healthy.
    run_cases; intros (Hv1 & Hv2 & Hv3) Hd Hload; simplify_eq;
      (split; [reflexivity|]);
      (split; [eexists; rewrite ?app_nil_r, <- ?app_assoc; find_block|]);
      intros (H1 & H2 & H3 & H4 & H5);
      repeat match goal with
        | E : datafile_NewFromCluster w ?c ?n ?f = _ |- _ =>
            let X := fresh "X" in
            pose proof (H1 c n f) as X; rewrite E in X; clear E; simplify_eq
        | E : datafile_BackupIfExists w ?f = _ |- _ =>
            let X := fresh "X" in
            pose proof (H2 f) as X; rewrite E in X; clear E; simplify_eq
        end;
      try congruence.
Qed.

Lemma descriptor_reuse_decision_witness :
  (IpsecSubmFile (options_after retriedRun) = brokerDetailsFilename
   /\ exists err,
       occurs_in
         [Called (Call_NewFromFile brokerDetailsFilename) None;
          Reported (Warned "Reusing IPsec PSK from existing broker-info.subm");
          Called (Call_NewFromCluster "submariner-k8s-broker" brokerDetailsFilename) err]
         (trace retriedRun))
  /\ (IpsecSubmFile (options_after firstRun) = ""
      /\ (exists err,
            occurs_in
              [Called (Call_NewFromFile brokerDetailsFilename) noFile;
               Reported (Succeeded
                           "A new IPsec PSK will be generated for broker-info.subm");
               Called (Call_NewFromCluster "submariner-k8s-broker" "") err]
              (trace firstRun))
      /\ (descriptor_store_healthy freshCluster -> result firstRun = None)).
Proof.
  split.
  - apply (proj1 (descriptor_reuse_decision secondRun kubeconfig
                    (request [components.Connectivity] false 0) brokerConfig
                    ltac:(repeat split; vm_compute; reflexivity)
                    ltac:(vm_compute; reflexivity) eq_refl)).
    reflexivity.
  - apply (proj2 (descriptor_reuse_decision freshCluster kubeconfig
                    (request [components.Connectivity] false 0) brokerConfig
                    ltac:(repeat split; vm_compute; reflexivity)
                    ltac:(vm_compute; reflexivity) eq_refl)
             "open broker-info.subm: no such file or directory").
    reflexivity.
Defined.

(** ** Globalnet validation and the options object *)

(** C9 as stated fails: with globalnet disabled and a cluster size given in
    the request, [checkGlobalnetConfig] returns no error and the cluster size
    of the options is the given one, not zero; that size is then handed to
    the creation of the addressing configuration. *)
Lemma disabled_globalnet_size_not_zero :
  GlobalnetEnabled (BrokerSpec (request [components.Connectivity] false 1024)) = false
  /\ result (checkGlobalnetConfig freshCluster
               (request [components.Connectivity] false 1024)) = None
  /\ DefaultGlobalnetClusterSize
       (BrokerSpec (options_after
                      (checkGlobalnetConfig freshCluster
                         (request [components.Connectivity] false 1024)))) = 1024%N
  /\ 1024%N <> 0%N
  /\ (Call_CreateGlobalnetConfigMap false "242.0.0.0/8" 1024 "submariner-k8s-broker",
      nil_error)
     ∈ calls_of (trace (Broker freshCluster kubeconfig
                          (request [components.Connectivity] false 1024))).
Proof.
  repeat split; try reflexivity; try discriminate.
  vm_compute. do 8 right. left.
Qed.

(** C9, amended: with globalnet disabled [checkGlobalnetConfig] does nothing:
    it returns no error, calls no collaborator and leaves the options, the
    cluster size among them, as they were. *)
Theorem checkGlobalnetConfig_disabled (w : World) (o : BrokerOptions) :
  GlobalnetEnabled (BrokerSpec o) = false ->
  checkGlobalnetConfig w o = (nil_error, o, []).
Proof.
  intros H. unfold checkGlobalnetConfig, get, mbind, M_bind, bind, mret, M_ret, ret.
  rewrite H. reflexivity.
Qed.

Lemma checkGlobalnetConfig_disabled_witness :
  checkGlobalnetConfig freshCluster (request [components.Connectivity] false 1024)
  = (nil_error, request [components.Connectivity] false 1024, []).
Proof.
  apply (checkGlobalnetConfig_disabled freshCluster
           (request [components.Connectivity] false 1024)).
  reflexivity.
Defined.

Lemma reuse_leaves_file_name (w : World) (p : Producer) (o : BrokerOptions)
    (config : RestConfig) :
  validated w p o config ->
  result (deploy w config (options_after (checkGlobalnetConfig w o))) = None ->
  IpsecSubmFile o = "" ->
  snd (datafile_NewFromFile w brokerDetailsFilename) = None ->
  IpsecSubmFile (options_after (Broker w p o)) = brokerDetailsFilename.
Proof.
  intros Hv Hd Hfile Hload.
  destruct o as [dbg file cm repo ver ns spec]. simpl in Hfile. subst file.
  revert Hv Hd Hload.
  run_cases; intros (Hv1 & Hv2 & Hv3) Hd Hload; simplify_eq; reflexivity.
Qed.

(** C10: [Broker] changes the options object it is given.  With globalnet
    enabled, [checkGlobalnetConfig] stores the size that
    [GetValidClusterSize] returns, and so does every run of [Broker] that
    passes component validation; a run that decides to reuse the key leaves
    the conventional file name in [IpsecSubmFile]. *)
Theorem Broker_mutates_options (w : World) (p : Producer) (o : BrokerOptions) :
  (GlobalnetEnabled (BrokerSpec o) = true ->
   options_after (checkGlobalnetConfig w o)
   = set_DefaultGlobalnetClusterSize
       (fst (globalnet_GetValidClusterSize w (GlobalnetCIDRRange (BrokerSpec o))
               (DefaultGlobalnetClusterSize (BrokerSpec o)))) o)
  /\ (GlobalnetEnabled (BrokerSpec o) = true ->
      isValidComponents (stringset.New (Components (BrokerSpec o))) = None ->
      DefaultGlobalnetClusterSize (BrokerSpec (options_after (Broker w p o)))
      = fst (globalnet_GetValidClusterSize w (GlobalnetCIDRRange (BrokerSpec o))
               (DefaultGlobalnetClusterSize (BrokerSpec o))))
  /\ (forall config,
        validated w p o config ->
        result (deploy w config (options_after (checkGlobalnetConfig w o))) = None ->
        IpsecSubmFile o = "" ->
        snd (datafile_NewFromFile w brokerDetailsFilename) = None ->
        IpsecSubmFile (options_after (Broker w p o)) = brokerDetailsFilename).
Proof.
  split; [|split].
  - run_cases; intros H; try (rewrite H in *; discriminate); simplify_eq;
      reflexivity.
  - run_cases; intros H1 H2; try (rewrite H1 in *; discriminate); simplify_eq;
      reflexivity.
  - apply reuse_leaves_file_name.
Qed.

Lemma Broker_mutates_options_witness :
  DefaultGlobalnetClusterSize (BrokerSpec (options_after globalnetRun)) = 65536%N
  /\ IpsecSubmFile (options_after retriedRun) = brokerDetailsFilename
  /\ options_after globalnetRun <> request [components.Connectivity] true 0
  /\ options_after retriedRun <> request [components.Connectivity] false 0.
Proof.
  split; [|split; [|split]].
  - apply (proj1 (proj2 (Broker_mutates_options freshCluster kubeconfig
                           (request [components.Connectivity] true 0)))).
    + reflexivity.
    + vm_compute. reflexivity.
  - apply (proj2 (proj2 (Broker_mutates_options secondRun kubeconfig
                           (request [components.Connectivity] false 0)))
             brokerConfig).
    + repeat split; vm_compute; reflexivity.
    + vm_compute. reflexivity.
    + reflexivity.
    + reflexivity.
  - vm_compute. discriminate.
  - vm_compute. discriminate.
Defined.
(** * Further properties *)

(** ** What a run returns *)

(** X1: [Broker] returns no error exactly when the last collaborator call of
    the run is a write of the descriptor to broker-info.subm that
    succeeded. *)
Theorem Broker_succeeds_iff_descriptor_written (w : World) (p : Producer)
    (o : BrokerOptions) :
  result (Broker w p o) = None <->
  exists d,
    last (calls_of (trace (Broker w p o)))
    = Some (Call_WriteToFile d brokerDetailsFilename, nil_error).
Proof.
  split.
  - run_cases; intros H; simplify_eq; eexists; reflexivity.
  - intros [d H]. revert H.
    run_cases; intros H; simplify_eq; reflexivity.
Qed.

(** X2: an error returned by [Broker] is always a cause behind one of the
    twelve contexts of the orchestrator. *)
Theorem Broker_error_has_context (w : World) (p : Producer) (o : BrokerOptions)
    (e : string) :
  result (Broker w p o) = Some e ->
  exists message cause,
    e = message +:+ ": " +:+ cause /\ message ∈ error_contexts.
Proof.
  run_cases; intros H; simplify_eq; do 2 eexists;
    (split; [reflexivity | apply list_elem_of_In; simpl; auto 20]).
Qed.

Lemma Broker_error_has_context_witness :
  exists message cause,
    "error setting up broker RBAC: forbidden" = message +:+ ": " +:+ cause
    /\ message ∈ error_contexts.
Proof.
  apply (Broker_error_has_context rbacDenied kubeconfig
           (request [components.Connectivity] false 0)).
  vm_compute. reflexivity.
Defined.

Lemma Broker_succeeds_iff_descriptor_written_witness :
  exists d,
    last (calls_of (trace firstRun))
    = Some (Call_WriteToFile d brokerDetailsFilename, nil_error).
Proof.
  apply (proj1 (Broker_succeeds_iff_descriptor_written freshCluster kubeconfig
                  (request [components.Connectivity] false 0))).
  vm_compute. reflexivity.
Defined.

(** ** The descriptor that is written *)

Lemma Contains_New (l : list string) (x : string) :
  stringset.Contains (stringset.New l) x = bool_decide (x ∈ l).
Proof.
  unfold stringset.Contains, stringset.New. apply bool_decide_ext.
  apply elem_of_list_to_set.
Qed.

Lemma Contains_Add_other (s : gset string) (x y : string) :
  x <> y -> stringset.Contains (stringset.Add x s) y = stringset.Contains s y.
Proof.
  intros Hne. unfold stringset.Contains, stringset.Add. apply bool_decide_ext.
  rewrite elem_of_union, elem_of_singleton.
  split; [intros [Hy|Hy]; [exact Hy | congruence] | auto].
Qed.

(** X3: the descriptor handed to [WriteToFile] is the one [NewFromCluster]
    built for the broker namespace and the descriptor path the options end
    up with, written to broker-info.subm; its secret material is untouched,
    its service-discovery flag tells whether service-discovery was requested,
    and its custom domains are those of the request when there are any and
    those of the built descriptor otherwise. *)
Theorem written_descriptor (w : World) (p : Producer) (o : BrokerOptions)
    (d : SubctlData) (f : string) (err : error) :
  (Call_WriteToFile d f, err) ∈ calls_of (trace (Broker w p o)) ->
  exists config d0,
    ForCluster p = (config, nil_error)
    /\ datafile_NewFromCluster w config (BrokerNamespace o)
         (IpsecSubmFile (options_after (Broker w p o))) = (d0, nil_error)
    /\ f = brokerDetailsFilename
    /\ IPSecPSK d = IPSecPSK d0
    /\ BrokerURL d = BrokerURL d0
    /\ ServiceDiscovery d
       = bool_decide (components.ServiceDiscovery ∈ Components (BrokerSpec o))
    /\ CustomDomains d
       = match DefaultCustomDomains (BrokerSpec o) with
         | [] => CustomDomains d0
         | _ :: _ => Some (DefaultCustomDomains (BrokerSpec o))
         end.
Proof.
  rewrite <- Contains_New.
  rewrite <- (Contains_Add_other _ components.Globalnet) by discriminate.
  destruct o as [dbg file cm repo ver ns [comps doms gn cidr size]].
  run_cases; intros H; invert_elem_of H;
    do 2 eexists; (split; [reflexivity|]); (split; [eassumption|]);
    repeat split; try reflexivity;
    rewrite ?Contains_Add_other by discriminate; reflexivity.
Qed.

Lemma written_descriptor_witness :
  exists config d0,
    ForCluster kubeconfig = (config, nil_error)
    /\ datafile_NewFromCluster secondRun config "submariner-k8s-broker"
         (IpsecSubmFile (options_after retriedRun)) = (d0, nil_error)
    /\ brokerDetailsFilename = brokerDetailsFilename
    /\ "0f1e2d3c" = IPSecPSK d0
    /\ "https://broker.example:6443" = BrokerURL d0
    /\ false = bool_decide (components.ServiceDiscovery ∈ [components.Connectivity])
    /\ None = CustomDomains d0.
Proof.
  apply (written_descriptor secondRun kubeconfig
           (request [components.Connectivity] false 0)
           (mkSubctlData "https://broker.example:6443" "0f1e2d3c" false
              (stringset.New [components.Connectivity]) None)
           brokerDetailsFilename nil_error).
  vm_compute. do 9 right. left.
Defined.

(** ** The options object and the arguments of the calls *)

(** X4: of the options it is given, [Broker] changes nothing but the
    descriptor path and the globalnet cluster size; a path pinned in the
    request is kept, and so is the cluster size when globalnet is
    disabled. *)
Theorem Broker_options_frame (w : World) (p : Producer) (o : BrokerOptions) :
  OperatorDebug (options_after (Broker w p o)) = OperatorDebug o
  /\ GlobalCIDRConfigMap (options_after (Broker w p o)) = GlobalCIDRConfigMap o
  /\ Repository (options_after (Broker w p o)) = Repository o
  /\ ImageVersion (options_after (Broker w p o)) = ImageVersion o
  /\ BrokerNamespace (options_after (Broker w p o)) = BrokerNamespace o
  /\ Components (BrokerSpec (options_after (Broker w p o))) = Components (BrokerSpec o)
  /\ DefaultCustomDomains (BrokerSpec (options_after (Broker w p o)))
     = DefaultCustomDomains (BrokerSpec o)
  /\ GlobalnetEnabled (BrokerSpec (options_after (Broker w p o)))
     = GlobalnetEnabled (BrokerSpec o)
  /\ GlobalnetCIDRRange (BrokerSpec (options_after (Broker w p o)))
     = GlobalnetCIDRRange (BrokerSpec o)
  /\ (IpsecSubmFile o <> "" ->
      IpsecSubmFile (options_after (Broker w p o)) = IpsecSubmFile o)
  /\ (GlobalnetEnabled (BrokerSpec o) = false ->
      DefaultGlobalnetClusterSize (BrokerSpec (options_after (Broker w p o)))
      = DefaultGlobalnetClusterSize (BrokerSpec o)).
Proof.
  destruct o as [dbg file cm repo ver ns [comps doms gn cidr size]].
  run_cases; repeat split; try reflexivity; intros H; simplify_eq;
    try reflexivity;
    match goal with
    | E : (_ =? "")%string = true |- _ => apply String.eqb_eq in E; contradiction
    end.
Qed.

Lemma Broker_options_frame_witness :
  IpsecSubmFile (options_after (Broker secondRun kubeconfig
       (set_IpsecSubmFile "old.subm" (request [components.Connectivity] false 7))))
  = "old.subm"
  /\ DefaultGlobalnetClusterSize (BrokerSpec (options_after (Broker secondRun kubeconfig
       (set_IpsecSubmFile "old.subm" (request [components.Connectivity] false 7)))))
     = 7%N.
Proof.
  pose proof (Broker_options_frame secondRun kubeconfig
                (set_IpsecSubmFile "old.subm" (request [components.Connectivity] false 7)))
    as (_ & _ & _ & _ & _ & _ & _ & _ & _ & Hf & Hs).
  split; [apply Hf; discriminate | apply Hs; reflexivity].
Defined.

(** X5: when the request pins a descriptor path, no earlier descriptor is
    loaded and the descriptor is built from the pinned path. *)
Theorem pinned_descriptor_path (w : World) (p : Producer) (o : BrokerOptions) :
  IpsecSubmFile o <> "" ->
  forall c err,
    (c, err) ∈ calls_of (trace (Broker w p o)) ->
    is_load c = false
    /\ (forall ns f, c = Call_NewFromCluster ns f ->
        ns = BrokerNamespace o /\ f = IpsecSubmFile o).
Proof.
  intros Hpin c err. revert Hpin.
  destruct o as [dbg file cm repo ver ns [comps doms gn cidr size]].
  run_cases; intros Hpin H;
    try match goal with
      | E : (_ =? "")%string = true |- _ => apply String.eqb_eq in E; contradiction
      end;
    invert_elem_of H; (split; [reflexivity|]); intros ns' f' E; simplify_eq;
    split; reflexivity.
Qed.

Lemma pinned_descriptor_path_witness :
  is_load (Call_NewFromCluster "submariner-k8s-broker" "old.subm") = false
  /\ (forall ns f,
        Call_NewFromCluster "submariner-k8s-broker" "old.subm" = Call_NewFromCluster ns f ->
        ns = "submariner-k8s-broker" /\ f = "old.subm").
Proof.
  apply (pinned_descriptor_path secondRun kubeconfig
           (set_IpsecSubmFile "old.subm" (request [components.Connectivity] false 0))
           ltac:(discriminate)
           (Call_NewFromCluster "submariner-k8s-broker" "old.subm") nil_error).
  vm_compute. do 5 right. left.
Defined.

(** ** Globalnet *)

(** X6: with globalnet disabled no function of the globalnet package is
    called, and the addressing configuration is created with the flag off
    and the range and cluster size of the request as they are. *)
Theorem globalnet_disabled_calls (w : World) (p : Producer) (o : BrokerOptions)
    (c : Callee) (err : error) :
  GlobalnetEnabled (BrokerSpec o) = false ->
  (c, err) ∈ calls_of (trace (Broker w p o)) ->
  is_globalnet_call c = false
  /\ (is_create_config (c, err) = true ->
      c = Call_CreateGlobalnetConfigMap false (GlobalnetCIDRRange (BrokerSpec o))
            (DefaultGlobalnetClusterSize (BrokerSpec o)) (BrokerNamespace o)).
Proof.
  destruct o as [dbg file cm repo ver ns [comps doms gn cidr size]].
  run_cases; intros Hg H; simplify_eq; invert_elem_of H;
    (split; [reflexivity|]); intros Hc; try discriminate; reflexivity.
Qed.

Lemma globalnet_disabled_calls_witness :
  is_globalnet_call
    (Call_CreateGlobalnetConfigMap false "242.0.0.0/8" 1024 "submariner-k8s-broker")
  = false
  /\ (is_create_config
        (Call_CreateGlobalnetConfigMap false "242.0.0.0/8" 1024 "submariner-k8s-broker",
         nil_error) = true ->
      Call_CreateGlobalnetConfigMap false "242.0.0.0/8" 1024 "submariner-k8s-broker"
      = Call_CreateGlobalnetConfigMap false "242.0.0.0/8" 1024 "submariner-k8s-broker").
Proof.
  apply (globalnet_disabled_calls freshCluster kubeconfig
           (request [components.Connectivity] false 1024)).
  - reflexivity.
  - vm_compute. do 8 right. left.
Defined.

(** X7: with globalnet enabled the addressing configuration is created only
    after the range has been validated and the check for existing global
    networks has passed, and it is created with the flag on, the range of
    the request and the cluster size [GetValidClusterSize] returned. *)
Theorem globalnet_enabled_config (w : World) (p : Producer) (o : BrokerOptions)
    (en : bool) (cidr : string) (size : N) (ns : string) (err : error) :
  GlobalnetEnabled (BrokerSpec o) = true ->
  (Call_CreateGlobalnetConfigMap en cidr size ns, err)
    ∈ calls_of (trace (Broker w p o)) ->
  en = true
  /\ cidr = GlobalnetCIDRRange (BrokerSpec o)
  /\ size = fst (globalnet_GetValidClusterSize w (GlobalnetCIDRRange (BrokerSpec o))
                   (DefaultGlobalnetClusterSize (BrokerSpec o)))
  /\ ns = BrokerNamespace o
  /\ globalnet_IsValidCIDR w cidr = None
  /\ precedes is_passed_network_check is_create_config
       (calls_of (trace (Broker w p o))).
Proof.
  rewrite <- precedesb_true.
  destruct o as [dbg file cm repo ver ns0 [comps doms gn cidr0 size0]].
  run_cases; intros Hg H; simplify_eq; invert_elem_of H;
    repeat split; try reflexivity; assumption.
Qed.

Lemma globalnet_enabled_config_witness :
  true = true
  /\ "242.0.0.0/8" = GlobalnetCIDRRange (BrokerSpec (request [components.Connectivity] true 0))
  /\ 65536%N = fst (globalnet_GetValidClusterSize freshCluster "242.0.0.0/8" 0)
  /\ "submariner-k8s-broker" = "submariner-k8s-broker"
  /\ globalnet_IsValidCIDR freshCluster "242.0.0.0/8" = None
  /\ precedes is_passed_network_check is_create_config (calls_of (trace globalnetRun)).
Proof.
  apply (globalnet_enabled_config freshCluster kubeconfig
           (request [components.Connectivity] true 0) true "242.0.0.0/8" 65536
           "submariner-k8s-broker" nil_error).
  - reflexivity.
  - vm_compute. do 11 right. left.
Defined.

(** ** What the reporter is told *)

(** X8: once the previous descriptor has been dealt with, a backup that was
    made is reported at once with the name of the backup file; when there
    was nothing to back up, nothing is reported and the next collaborator is
    called. *)
Theorem backup_reported (w : World) (p : Producer) (o : BrokerOptions)
    (newFilename : string) :
  datafile_BackupIfExists w brokerDetailsFilename = (newFilename, nil_error) ->
  (Call_BackupIfExists brokerDetailsFilename, nil_error)
    ∈ calls_of (trace (Broker w p o)) ->
  (newFilename <> "" ->
   occurs_in
     [Called (Call_BackupIfExists brokerDetailsFilename) None;
      Reported (Succeeded ("Backed up previous " +:+ brokerDetailsFilename
                           +:+ " to " +:+ newFilename))]
     (trace (Broker w p o)))
  /\ (newFilename = "" ->
      exists c err,
        occurs_in [Called (Call_BackupIfExists brokerDetailsFilename) None; Called c err]
          (trace (Broker w p o))).
Proof.
  run_cases; intros Hb H; simplify_eq; invert_elem_of H;
    rewrite ?app_nil_r, <- ?app_assoc;
    repeat match goal with
      | E : negb (_ =? "")%string = _ |- _ =>
          first [apply negb_true_iff, String.eqb_neq in E
                | apply negb_false_iff, String.eqb_eq in E]
      end;
    (split;
     [intros Hn; try contradiction; find_block
     |intros Hn; try contradiction; do 2 eexists; find_block]).
Qed.

Lemma backup_reported_witness :
  ("broker-info.subm.2022_01_01_00_00_00" <> "" ->
   occurs_in
     [Called (Call_BackupIfExists brokerDetailsFilename) None;
      Reported (Succeeded ("Backed up previous " +:+ brokerDetailsFilename
                           +:+ " to " +:+ "broker-info.subm.2022_01_01_00_00_00"))]
     (trace retriedRun))
  /\ ("broker-info.subm.2022_01_01_00_00_00" = "" ->
      exists c err,
        occurs_in [Called (Call_BackupIfExists brokerDetailsFilename) None; Called c err]
          (trace retriedRun)).
Proof.
  apply (backup_reported secondRun kubeconfig
           (request [components.Connectivity] false 0)).
  - reflexivity.
  - vm_compute. do 7 right. left.
Defined.

(** X9: when a call that is not bracketed by [Started] and [EndedWith] or
    [Failed] comes back with the error that ends the run, that call is the
    last event of the trace: the reporter is told nothing after it, and the
    unit of work started before it is not ended. *)
Theorem unbracketed_failure_ends_trace (w : World) (p : Producer)
    (o : BrokerOptions) (c : Callee) (cause : string) :
  last (calls_of (trace (Broker w p o))) = Some (c, Some cause) ->
  is_bracketed c = false ->
  [Called c (Some cause)] `suffix_of` trace (Broker w p o).
Proof.
  run_cases; intros Hl Hb; simplify_eq; rewrite ?app_nil_r, <- ?app_assoc;
    find_suffix.
Qed.

Lemma unbracketed_failure_ends_trace_witness :
  [Called (Call_image_ForOperator "0.12.0" "quay.io/submariner")
     (Some "invalid image version")]
    `suffix_of` trace (Broker imageMissing kubeconfig
                         (request [components.Connectivity] false 0)).
Proof.
  apply (unbracketed_failure_ends_trace imageMissing kubeconfig
           (request [components.Connectivity] false 0)).
  - reflexivity.
  - reflexivity.
Defined.

(** ** [deploy] on its own *)

(** X10: [deploy] leaves the options as they are, and calls nothing but the
    RBAC set-up with the requested components, the image resolution, the
    operator installation with the image that was resolved, and the broker
    resource with the spec of the options. *)
Theorem deploy_calls (w : World) (config : RestConfig) (o : BrokerOptions) :
  options_after (deploy w config o) = o
  /\ forall c err,
       (c, err) ∈ calls_of (trace (deploy w config o)) ->
       c = Call_broker_Ensure (Components (BrokerSpec o)) false (BrokerNamespace o)
       \/ c = Call_image_ForOperator (ImageVersion o) (Repository o)
       \/ c = Call_submarinerop_Ensure (OperatorNamespace w)
                (fst (image_ForOperator w (ImageVersion o) (Repository o)))
                (OperatorDebug o)
       \/ c = Call_brokercr_Ensure (BrokerNamespace o) (BrokerSpec o).
Proof.
  split.
  - run_cases; reflexivity.
  - intros c err.
    run_cases; intros H; invert_elem_of H; auto.
Qed.

(** X11: [deploy] returns no error exactly when its four collaborators
    succeed, and then the last thing the reporter is told is that the
    broker has been deployed. *)
Theorem deploy_succeeds_iff (w : World) (config : RestConfig) (o : BrokerOptions) :
  (result (deploy w config o) = None <->
   broker_Ensure w config (Components (BrokerSpec o)) false (BrokerNamespace o) = None
   /\ snd (image_ForOperator w (ImageVersion o) (Repository o)) = None
   /\ snd (submarinerop_Ensure w config (OperatorNamespace w)
             (fst (image_ForOperator w (ImageVersion o) (Repository o)))
             (OperatorDebug o)) = None
   /\ brokercr_Ensure w config (BrokerNamespace o) (BrokerSpec o) = None)
  /\ (result (deploy w config o) = None ->
      last (reports_of (trace (deploy w config o)))
      = Some (Succeeded "The broker has been deployed")).
Proof.
  split; [split|].
  - run_cases; intros H; simplify_eq; auto.
  - run_cases; intros (H1 & H2 & H3 & H4); simplify_eq; reflexivity.
  - run_cases; intros H; simplify_eq; rewrite last_cons, last_app; reflexivity.
Qed.

Lemma deploy_succeeds_iff_witness :
  last (reports_of (trace (deploy freshCluster brokerConfig
                             (request [components.Connectivity] false 0))))
  = Some (Succeeded "The broker has been deployed").
Proof.
  apply (proj2 (deploy_succeeds_iff freshCluster brokerConfig
                  (request [components.Connectivity] false 0))).
  reflexivity.
Defined.

Lemma deploy_calls_witness :
  Call_image_ForOperator "0.12.0" "quay.io/submariner"
  = Call_broker_Ensure [components.Connectivity] false "submariner-k8s-broker"
  \/ Call_image_ForOperator "0.12.0" "quay.io/submariner"
     = Call_image_ForOperator "0.12.0" "quay.io/submariner"
  \/ Call_image_ForOperator "0.12.0" "quay.io/submariner"
     = Call_submarinerop_Ensure "submariner-operator"
         (fst (image_ForOperator imageMissing "0.12.0" "quay.io/submariner")) false
  \/ Call_image_ForOperator "0.12.0" "quay.io/submariner"
     = Call_brokercr_Ensure "submariner-k8s-broker"
         (BrokerSpec (request [components.Connectivity] false 0)).
Proof.
  apply (proj2 (deploy_calls imageMissing brokerConfig
                  (request [components.Connectivity] false 0))
           (Call_image_ForOperator "0.12.0" "quay.io/submariner")
           (Some "invalid image version")).
  vm_compute. right. left.
Defined.

(** ** A failure told to the reporter *)

Lemma annotations_not_ended (rs : list Report) (e : error) :
  forallb is_annotation rs = true -> EndedWith e ∈ rs -> False.
Proof.
  intros Hall Hin. rewrite forallb_forall in Hall.
  apply list_elem_of_In, Hall in Hin. discriminate.
Qed.

(** X12: when [submarinerop.Ensure] only annotates, an [EndedWith] with an
    error in the trace means that [Broker] returns that error, behind one of
    its contexts: the reporter is never told of a failed unit of work in a
    run that returns no error. *)
Theorem ended_with_error_is_returned (w : World) (p : Producer)
    (o : BrokerOptions) (cause : string) :
  operator_only_annotates w ->
  EndedWith (Some cause) ∈ reports_of (trace (Broker w p o)) ->
  exists message,
    result (Broker w p o) = Some (message +:+ ": " +:+ cause)
    /\ message ∈ error_contexts.
Proof.
  intros Hop. unfold operator_only_annotates in Hop.
  run_cases; intros H; rewrite ?app_nil_r, <- ?app_assoc in H;
    repeat first
      [ apply elem_of_cons in H as [H|H]; [simplify_eq|]
      | apply elem_of_app in H as [H|H];
        [exfalso; eapply annotations_not_ended; [apply Hop | exact H]|] ];
    try (apply elem_of_nil in H; destruct H);
    eexists; (split; [reflexivity | apply list_elem_of_In; simpl; auto 20]).
Qed.

Lemma ended_with_error_is_returned_witness :
  exists message,
    result (Broker rbacDenied kubeconfig (request [components.Connectivity] false 0))
    = Some (message +:+ ": " +:+ "forbidden")
    /\ message ∈ error_contexts.
Proof.
  apply (ended_with_error_is_returned rbacDenied kubeconfig
           (request [components.Connectivity] false 0) "forbidden").
  - intros c ns image debug. reflexivity.
  - vm_compute. right. left.
Defined.

(** ** The command-line reporter *)

(** X13: the command-line reporter turns an event into at most one call on
    its status, and into none exactly for a success, warning or failure
    annotation with the empty message; a [Started] with the empty message
    still starts a unit of work. *)
Theorem cliReporter_empty_message {Arg Result : Type}
    (Sprintf : string -> list Arg -> string) (CheckForError : error -> Result)
    (r : Report) :
  (cliReporter_report Sprintf CheckForError r = [] <->
   r = Succeeded "" \/ r = Warned "" \/ r = Failed "")
  /\ (length (cliReporter_report Sprintf CheckForError r) <= 1)%nat
  /\ cliReporter_report Sprintf CheckForError (Started "") = [Start (Sprintf "" [])].
Proof.
  split; [|split; [|reflexivity]].
  - destruct r as [m|m|m|e|m]; simpl;
      unfold cliReporter_Started, cliReporter_Succeeded, cliReporter_Failed,
        cliReporter_EndedWith, cliReporter_Warned;
      try (split; [discriminate | intros [H|[H|H]]; discriminate]);
      destruct (String.eqb_spec m "") as [->|Hne]; simpl;
      (split; [try discriminate; auto | intros [H|[H|H]]; simplify_eq; reflexivity]).
  - destruct r as [m|m|m|e|m]; simpl;
      unfold cliReporter_Started, cliReporter_Succeeded, cliReporter_Failed,
        cliReporter_EndedWith, cliReporter_Warned;
      try destruct (String.eqb m ""); simpl; lia.
Qed.

Lemma ends_follow_starts_annotations {Arg Result : Type}
    (Sprintf : string -> list Arg -> string) (CheckForError : error -> Result)
    (rs : list Report) (started : bool) (cs : list (StatusCall Result)) :
  forallb is_annotation rs = true ->
  ends_follow_starts started (flat_map (cliReporter_report Sprintf CheckForError) rs ++ cs)
  = ends_follow_starts started cs.
Proof.
  induction rs as [|r rs IH]; simpl; [reflexivity|].
  intros H. apply andb_true_iff in H as [Hr Hrs].
  rewrite <- app_assoc.
  destruct r as [m|m|m|e|m]; try discriminate; simpl;
    unfold cliReporter_Succeeded, cliReporter_Failed, cliReporter_Warned;
    destruct (String.eqb m ""); simpl; auto.
Qed.

Lemma ends_follow_starts_split {Result : Type} (started : bool)
    (pre : list (StatusCall Result)) (output : Result)
    (post : list (StatusCall Result)) :
  ends_follow_starts started (pre ++ End output :: post) = true ->
  (exists pre1 message pre2,
      pre = pre1 ++ Start message :: pre2 /\ forallb (fun c => negb (is_End c)) pre2 = true)
  \/ (started = true /\ forallb (fun c => negb (is_End c)) pre = true).
Proof.
  revert started. induction pre as [|c pre IH]; intros started H; simpl in H.
  - apply andb_true_iff in H as [-> _]. right. auto.
  - destruct c as [m|m|m|m|out].
    + destruct (IH _ H) as [(pre1 & m' & pre2 & -> & Hn)|[_ Hn]].
      * left. exists (Start m :: pre1), m', pre2. auto.
      * left. exists [], m, pre. auto.
    + destruct (IH _ H) as [(pre1 & m' & pre2 & -> & Hn)|[-> Hn]].
      * left. exists (QueueSuccessMessage m :: pre1), m', pre2. auto.
      * right. auto.
    + destruct (IH _ H) as [(pre1 & m' & pre2 & -> & Hn)|[-> Hn]].
      * left. exists (QueueWarningMessage m :: pre1), m', pre2. auto.
      * right. auto.
    + destruct (IH _ H) as [(pre1 & m' & pre2 & -> & Hn)|[-> Hn]].
      * left. exists (QueueFailureMessage m :: pre1), m', pre2. auto.
      * right. auto.
    + apply andb_true_iff in H as [_ H].
      destruct (IH _ H) as [(pre1 & m' & pre2 & -> & Hn)|[Hf _]]; [|discriminate].
      left. exists (End out :: pre1), m', pre2. auto.
Qed.

Lemma Broker_status_ends_follow_starts {Arg Result : Type}
    (Sprintf : string -> list Arg -> string) (CheckForError : error -> Result)
    (w : World) (p : Producer) (o : BrokerOptions) :
  operator_only_annotates w ->
  ends_follow_starts false (status_calls Sprintf CheckForError (trace (Broker w p o)))
  = true.
Proof.
  intros Hop. unfold operator_only_annotates in Hop. unfold status_calls.
  run_cases; try reflexivity;
    rewrite ?app_nil_r, <- ?app_assoc, flat_map_app;
    rewrite ends_follow_starts_annotations by apply Hop;
    reflexivity.
Qed.

(** X14: driven by a run of [Broker] in which [submarinerop.Ensure] only
    annotates, the command-line reporter never ends a unit of work that it
    has not started: before every [End] on the status there is a [Start]
    with no other [End] in between. *)
Theorem cliReporter_ends_what_it_started {Arg Result : Type}
    (Sprintf : string -> list Arg -> string) (CheckForError : error -> Result)
    (w : World) (p : Producer) (o : BrokerOptions)
    (pre : list (StatusCall Result)) (output : Result)
    (post : list (StatusCall Result)) :
  operator_only_annotates w ->
  status_calls Sprintf CheckForError (trace (Broker w p o))
  = pre ++ End output :: post ->
  exists pre1 message pre2,
    pre = pre1 ++ Start message :: pre2
    /\ forallb (fun c => negb (is_End c)) pre2 = true.
Proof.
  intros Hop E.
  pose proof (Broker_status_ends_follow_starts Sprintf CheckForError w p o Hop) as H.
  rewrite E in H.
  destruct (ends_follow_starts_split _ _ _ _ H) as [Hs|[Hf _]];
    [exact Hs | discriminate].
Qed.

Lemma cliReporter_ends_what_it_started_witness :
  exists pre1 message pre2,
    [Start "Setting up broker RBAC"] = pre1 ++ @Start bool message :: pre2
    /\ forallb (fun c => negb (is_End c)) pre2 = true.
Proof.
  apply (cliReporter_ends_what_it_started (fun m (_ : list unit) => m) is_nil
           rbacDenied kubeconfig (request [components.Connectivity] false 0)
           [Start "Setting up broker RBAC"] false []).
  - intros c ns image debug. reflexivity.
  - reflexivity.
Defined.

(** ** The units of work that are announced *)

Lemma started_messages_app (rs1 rs2 : list Report) :
  started_messages (rs1 ++ rs2) = started_messages rs1 ++ started_messages rs2.
Proof.
  induction rs1 as [|[m|m|m|e|m] rs1 IH]; simpl; try exact IH;
    [reflexivity | now rewrite IH].
Qed.

Lemma started_messages_annotations (rs : list Report) :
  forallb is_annotation rs = true -> started_messages rs = [].
Proof.
  induction rs as [|[m|m|m|e|m] rs IH]; simpl; try discriminate; auto.
Qed.

(** X15: when [submarinerop.Ensure] only annotates, the units of work a run
    announces with [Started] are the first ones of: RBAC set-up, operator
    deployment, broker deployment, creation of the descriptor file, in that
    order; a run that returns no error announces all four. *)
Theorem announced_units_in_order (w : World) (p : Producer) (o : BrokerOptions) :
  operator_only_annotates w ->
  started_messages (reports_of (trace (Broker w p o))) `prefix_of` announced_units
  /\ (result (Broker w p o) = None ->
      started_messages (reports_of (trace (Broker w p o))) = announced_units).
Proof.
  intros Hop. unfold operator_only_annotates in Hop.
  run_cases; rewrite ?app_nil_r, <- ?app_assoc, ?started_messages_app;
    rewrite ?started_messages_annotations by apply Hop;
    (split; [eexists; reflexivity | intros H; simplify_eq; reflexivity]).
Qed.

Lemma announced_units_in_order_witness :
  started_messages (reports_of (trace firstRun)) `prefix_of` announced_units
  /\ (result firstRun = None ->
      started_messages (reports_of (trace firstRun)) = announced_units).
Proof.
  apply (announced_units_in_order freshCluster kubeconfig
           (request [components.Connectivity] false 0)).
  intros c ns image debug. reflexivity.
Defined.

(** ** Calling [Broker] again with the same options object *)

Lemma Broker_resolved_size (w : World) (p : Producer) (o : BrokerOptions) :
  GlobalnetEnabled (BrokerSpec o) = true ->
  isValidComponents (stringset.New (Components (BrokerSpec o))) = None ->
  DefaultGlobalnetClusterSize (BrokerSpec (options_after (Broker w p o)))
  = fst (globalnet_GetValidClusterSize w (GlobalnetCIDRRange (BrokerSpec o))
           (DefaultGlobalnetClusterSize (BrokerSpec o))).
Proof.
  run_cases; intros H1 H2; try (rewrite H1 in *; discriminate); simplify_eq;
    reflexivity.
Qed.

Lemma GetValidClusterSize_arguments (w : World) (p : Producer) (o : BrokerOptions)
    (cidr : string) (size : N) (err : error) :
  (Call_GetValidClusterSize cidr size, err) ∈ calls_of (trace (Broker w p o)) ->
  cidr = GlobalnetCIDRRange (BrokerSpec o)
  /\ size = DefaultGlobalnetClusterSize (BrokerSpec o).
Proof.
  run_cases; intros H; invert_elem_of H; split; reflexivity.
Qed.

Lemma Broker_keeps_request (w : World) (p : Producer) (o : BrokerOptions) :
  GlobalnetCIDRRange (BrokerSpec (options_after (Broker w p o)))
  = GlobalnetCIDRRange (BrokerSpec o).
Proof. run_cases; reflexivity. Qed.

(** X16: when [Broker] is called again with the options object of an
    earlier run that had globalnet enabled and passed component validation,
    the cluster size handed to [GetValidClusterSize] is the one the earlier
    run resolved, not the one first requested. *)
Theorem second_run_sees_resolved_size (w1 w2 : World) (p1 p2 : Producer)
    (o : BrokerOptions) (cidr : string) (size : N) (err : error) :
  GlobalnetEnabled (BrokerSpec o) = true ->
  isValidComponents (stringset.New (Components (BrokerSpec o))) = None ->
  (Call_GetValidClusterSize cidr size, err)
    ∈ calls_of (trace (Broker w2 p2 (options_after (Broker w1 p1 o)))) ->
  cidr = GlobalnetCIDRRange (BrokerSpec o)
  /\ size = fst (globalnet_GetValidClusterSize w1 (GlobalnetCIDRRange (BrokerSpec o))
                   (DefaultGlobalnetClusterSize (BrokerSpec o))).
Proof.
  intros Hg Hv H.
  apply GetValidClusterSize_arguments in H as [-> ->].
  split; [apply Broker_keeps_request | apply Broker_resolved_size; assumption].
Qed.

Lemma second_run_sees_resolved_size_witness :
  "242.0.0.0/8" = GlobalnetCIDRRange (BrokerSpec (request [components.Connectivity] true 0))
  /\ 65536%N = fst (globalnet_GetValidClusterSize freshCluster "242.0.0.0/8" 0).
Proof.
  apply (second_run_sees_resolved_size freshCluster secondRun kubeconfig kubeconfig
           (request [components.Connectivity] true 0) "242.0.0.0/8" 65536 nil_error).
  - reflexivity.
  - vm_compute. reflexivity.
  - vm_compute. left.
Defined.
